(** * llm.embeddings: the [Collection] class over its SQLite store

    A shallow embedding of [src/llm/embeddings.py].  A [Collection] is a
    mutable Python object holding a reference to a shared
    [sqlite_utils.Database]; its methods read and write the handle's private
    attributes, query and update the database, and raise.  They are modelled
    in a state-and-exception monad whose state keeps the handle ([self]),
    the database and the trace of calls made on the database object. *)

From Stdlib Require Import ZArith List String Bool Lia Sorted Permutation.
From Stdlib Require Import Strings.Byte Floats.SpecFloat.
Import ListNotations.

Local Open Scope string_scope.
Local Open Scope list_scope.
Local Open Scope Z_scope.

(** ** Python values and exceptions *)

Definition bytes := list byte.

(** The exceptions the module raises or lets through. *)
Inductive exn : Type :=
| ValueError (msg : string)
| NotImplementedError
| IntegrityError (msg : string)      (* sqlite3.IntegrityError *)
| OperationalError (msg : string)    (* sqlite3.OperationalError *)
| OtherError (kind : string).        (* raised inside a collaborator *)

Inductive result (A : Type) : Type :=
| Ok (a : A)
| Raise (e : exn).
Arguments Ok {A} a.
Arguments Raise {A} e.

(** [bool(s)] for a string: false for the empty string only. *)
Definition truthy (s : string) : bool := negb (s =? EmptyString)%string.

(** ** Vector codec *)

Module Codec.

(** IEEE-754 single precision (binary32): 24 bits of precision, infinities
    at exponent 128.  Values are [spec_float]s in the format's canonical
    form. *)
Definition prec : Z := 24.
Definition emax : Z := 128.

Definition is_finite (x : spec_float) : bool :=
  match x with
  | S754_zero _ | S754_finite _ _ _ => true
  | S754_infinity _ | S754_nan => false
  end.

(** A finite single-precision value: zero, or a mantissa and exponent in
    the canonical form of the format. *)
Definition finite_single (x : spec_float) : Prop :=
  valid_binary prec emax x = true /\ is_finite x = true.

Definition sign_bit (s : bool) : Z := if s then 2 ^ 31 else 0.

(** Modelled from the spec: the "IEEE-754 single-precision value" written
    for an element (section 4.1), absent from src/.  The 32-bit word of a
    value: sign (bit 31), biased exponent (bits 30..23), fraction (bits
    22..0).  A mantissa below [2 ^ 23] is subnormal and has the exponent
    field 0; otherwise the leading bit of the mantissa is implicit and the
    exponent is biased by 127 (150 with the 23 fraction bits). *)
Definition bits_of_single (x : spec_float) : Z :=
  match x with
  | S754_zero s => sign_bit s
  | S754_infinity s => sign_bit s + 255 * 2 ^ 23
  | S754_nan => 255 * 2 ^ 23 + 2 ^ 22
  | S754_finite s m e =>
      if Z.pos m <? 2 ^ 23
      then sign_bit s + Z.pos m
      else sign_bit s + (e + 150) * 2 ^ 23 + (Z.pos m - 2 ^ 23)
  end.

(** Modelled from the spec: the value of a 32-bit word, the inverse
    reading of the same layout (section 4.1). *)
Definition single_of_bits (w : Z) : spec_float :=
  let s := Z.testbit w 31 in
  let exponent := Z.land (Z.shiftr w 23) 255 in
  let fraction := Z.land w (Z.ones 23) in
  if exponent =? 0 then
    if fraction =? 0 then S754_zero s
    else S754_finite s (Z.to_pos fraction) (-149)
  else if exponent =? 255 then
    if fraction =? 0 then S754_infinity s else S754_nan
  else S754_finite s (Z.to_pos (2 ^ 23 + fraction)) (exponent - 150).

Definition byte_of_Z (z : Z) : byte :=
  match Byte.of_N (Z.to_N (Z.land z 255)) with
  | Some b => b
  | None => x00
  end.

Definition Z_of_byte (b : byte) : Z := Z.of_N (Byte.to_N b).

(** Modelled from the spec: a 32-bit word as four bytes, least significant
    first, and back ("4-byte little-endian", section 4.1). *)
Definition word_bytes (w : Z) : bytes :=
  [byte_of_Z w; byte_of_Z (Z.shiftr w 8);
   byte_of_Z (Z.shiftr w 16); byte_of_Z (Z.shiftr w 24)].

Definition bytes_word (b0 b1 b2 b3 : byte) : Z :=
  Z.lor (Z_of_byte b0)
    (Z.lor (Z.shiftl (Z_of_byte b1) 8)
       (Z.lor (Z.shiftl (Z_of_byte b2) 16) (Z.shiftl (Z_of_byte b3) 24))).

(** The words one after the other: no separator, length prefix or header. *)
Definition pack_words (ws : list Z) : bytes := flat_map word_bytes ws.

Fixpoint unpack_words (binary : bytes) : list Z :=
  match binary with
  | b0 :: b1 :: b2 :: b3 :: rest => bytes_word b0 b1 b2 b3 :: unpack_words rest
  | _ => []
  end.

(** The blob as a contiguous run of 4-byte words; a length that is not a
    multiple of 4 is a decoding error. *)
Definition decode_words (binary : bytes) : result (list Z) :=
  if Z.of_nat (List.length binary) mod 4 =? 0
  then Ok (unpack_words binary)
  else Raise (OtherError "struct.error").

(** Modelled from the spec: [llm.encode], absent from src/.  Each element
    is written as an IEEE-754 single-precision value, four bytes, in input
    order (section 4.1). *)
Definition encode (values : list spec_float) : bytes :=
  pack_words (map bits_of_single values).

(** Modelled from the spec: [llm.decode], absent from src/.  Reads the
    blob as a contiguous run of 4-byte little-endian IEEE-754 floats and
    fails with a decoding error if its length is not a multiple of 4
    (section 4.1). *)
Definition decode (binary : bytes) : result (list spec_float) :=
  match decode_words binary with
  | Ok ws => Ok (map single_of_bits ws)
  | Raise e => Raise e
  end.

End Codec.

(** ** Collaborators *)

(** [llm.models.EmbeddingModel], as far as the collection uses it: the
    [model_id] attribute and [embed(text)].  An instance is truthy. *)
Record EmbeddingModel (float : Type) : Type := {
  model_id : string;
  embed_text : string -> list float
}.
Arguments model_id {float} _.
Arguments embed_text {float} _ _.

(** What [embeddings.py] imports: the [llm] package (model registry, codec
    and scoring), [json.dumps], and the order SQLite sorts scores by. *)
Class Llm : Type := {
  float : Type;
  (* metadata values, Dict[str, Any] *)
  json : Type;
  (* llm.get_embedding_model; None stands for llm.UnknownModelError *)
  get_embedding_model : option string -> option (EmbeddingModel float);
  encode : list float -> bytes;
  decode : bytes -> result (list float);
  cosine_similarity : list float -> list float -> result float;
  json_dumps : list (string * json) -> string;
  (* SQLite's comparison of two values of the score column *)
  score_leb : float -> float -> bool
}.

(** ** The database *)

(** Rows of the table [collections(id PK, name UNIQUE, model)]. *)
Module collections.
Record row : Type := { id : Z; name : string; model : string }.
End collections.

(** Rows of the table [embeddings(collection_id, id, embedding, content,
    metadata)]. *)
Module embeddings.
Record row : Type := {
  collection_id : Z;
  id : string;
  embedding : bytes;
  content : option string;
  metadata : option string
}.
End embeddings.

(** The [embeddings] table with its rows in storage order.  [keyed] tells
    whether the table carries [PRIMARY KEY (collection_id, id)]: the
    migration's table does, a table that sqlite_utils creates on the fly for
    an insert into a missing table does not. *)
Record embeddings_table : Type := {
  keyed : bool;
  rows : list embeddings.row
}.

(** A table is [None] until it is created. *)
Record Database : Type := {
  db_collections : option (list collections.row);
  db_embeddings : option embeddings_table
}.

(** Calls made on the database object, oldest first. *)
Inductive db_call : Type :=
| call_exists (table : string)
| call_apply_migrations
| call_rows_where (table : string)
| call_insert (table : string)
| call_query (sql : string)
| call_register_function (name : string).

(** ** The handle and the monad *)

(** A [Collection] object: [self.name], [self._model], [self._model_id] and
    [self._id]; [self.db] is the database of the state the methods run in. *)
Record Collection `{Llm} : Type := {
  name : string;
  _model : option (EmbeddingModel float);
  _model_id : option string;
  _id : option Z
}.

Record State `{Llm} : Type := {
  self : Collection;
  db : Database;
  calls : list db_call
}.

Section Monad.
Context `{L : Llm}.

(** A method runs from a state to a state and either returns or raises;
    what it did before raising stays done. *)
Definition M (A : Type) : Type := State -> State * result A.

Definition ret {A : Type} (a : A) : M A := fun s => (s, Ok a).

Definition raise {A : Type} (e : exn) : M A := fun s => (s, Raise e).

Definition bind {A B : Type} (m : M A) (k : A -> M B) : M B :=
  fun s =>
    match m s with
    | (s', Ok a) => k a s'
    | (s', Raise e) => (s', Raise e)
    end.

Definition get_self : M Collection := fun s => (s, Ok (self s)).

Definition put_self (c : Collection) : M unit :=
  fun s => ({| self := c; db := db s; calls := calls s |}, Ok tt).

Definition get_db : M Database := fun s => (s, Ok (db s)).

Definition put_db (d : Database) : M unit :=
  fun s => ({| self := self s; db := d; calls := calls s |}, Ok tt).

Definition log (c : db_call) : M unit :=
  fun s => ({| self := self s; db := db s; calls := calls s ++ [c] |}, Ok tt).

End Monad.

Declare Scope py_scope.
Delimit Scope py_scope with py.
Notation "x <- m ;; k" := (bind m (fun x => k))
  (at level 61, m at next level, right associativity) : py_scope.
Notation "m ;; k" := (bind m (fun _ => k))
  (at level 61, right associativity) : py_scope.
Local Open Scope py_scope.

(** ** sqlite_utils and SQLite, as far as the module calls them *)

Module sqlite.
Section Sqlite.
Context `{L : Llm}.

Definition max_int64 : Z := 2 ^ 63 - 1.
Definition min_int64 : Z := - 2 ^ 63.

(** [self.db["collections"].exists()] *)
Definition collections_exists : M bool :=
  log (call_exists "collections") ;;
  d <- get_db ;;
  ret (match db_collections d with Some _ => true | None => false end).

(** Modelled from the spec: [embeddings_migrations.apply], absent from
    src/.  An idempotent routine that creates the two tables if they do
    not already exist (sections 4.2 and 6). *)
Definition embeddings_migrations_apply : M unit :=
  log call_apply_migrations ;;
  d <- get_db ;;
  put_db
    {| db_collections :=
         Some (match db_collections d with Some rs => rs | None => [] end);
       db_embeddings :=
         Some (match db_embeddings d with
               | Some t => t
               | None => {| keyed := true; rows := [] |}
               end) |}.

Definition named (n : string) (r : collections.row) : bool :=
  (collections.name r =? n)%string.

(** [self.db["collections"].rows_where("name = ?", [name])], rows in
    storage order; a missing table yields no rows. *)
Definition collections_rows_where (n : string) : M (list collections.row) :=
  log (call_rows_where "collections") ;;
  d <- get_db ;;
  ret (match db_collections d with
       | Some rs => filter (named n) rs
       | None => []
       end).

(** The rowid SQLite gives a new row: one more than the largest, 1 in an
    empty table. *)
Definition next_rowid (rs : list collections.row) : Z :=
  match rs with
  | [] => 1
  | r :: rs' =>
      1 + fold_right (fun x m => Z.max (collections.id x) m)
            (collections.id r) rs'
  end.

(** [self.db["collections"].insert({"name": n, "model": m}).last_pk];
    [name] is UNIQUE.  (A missing table would be created by the insert;
    [Collection.id] never gets there, it applies the migrations first.) *)
Definition collections_insert (n m : string) : M Z :=
  log (call_insert "collections") ;;
  d <- get_db ;;
  let rs := match db_collections d with Some rs => rs | None => [] end in
  if existsb (named n) rs
  then raise (IntegrityError "UNIQUE constraint failed: collections.name")
  else
    let pk := next_rowid rs in
    put_db
      {| db_collections :=
           Some (rs ++ [{| collections.id := pk;
                           collections.name := n;
                           collections.model := m |}]);
         db_embeddings := db_embeddings d |} ;;
    ret pk.

Definition keyed_as (cid : Z) (i : string) (r : embeddings.row) : bool :=
  (embeddings.collection_id r =? cid)
  && (embeddings.id r =? i)%string.

(** [self.db["embeddings"].insert(record)]: a plain INSERT, refused by
    the primary key when [(collection_id, id)] is taken.  Inserting into
    a missing table creates it from the record, without a key. *)
Definition embeddings_insert (r : embeddings.row) : M unit :=
  log (call_insert "embeddings") ;;
  d <- get_db ;;
  match db_embeddings d with
  | None =>
      put_db {| db_collections := db_collections d;
                db_embeddings := Some {| keyed := false; rows := [r] |} |}
  | Some t =>
      if keyed t
         && existsb (keyed_as (embeddings.collection_id r) (embeddings.id r))
              (rows t)
      then raise (IntegrityError
             "UNIQUE constraint failed: embeddings.collection_id, embeddings.id")
      else
        put_db {| db_collections := db_collections d;
                  db_embeddings :=
                    Some {| keyed := keyed t; rows := rows t ++ [r] |} |}
  end.

(** [self.db["embeddings"].rows_where("collection_id = ? and id = ?",
    (cid, i))]; a missing table yields no rows. *)
Definition embeddings_rows_where (cid : Z) (i : string)
  : M (list embeddings.row) :=
  log (call_rows_where "embeddings") ;;
  d <- get_db ;;
  ret (match db_embeddings d with
       | Some t => filter (keyed_as cid i) (rows t)
       | None => []
       end).

(** [self.db.query("select 1 from collections where name = ?", (n,))] *)
Definition query_select_1 (n : string) : M (list Z) :=
  log (call_query "select 1 from collections where name = ?") ;;
  d <- get_db ;;
  match db_collections d with
  | Some rs => ret (map (fun _ => 1) (filter (named n) rs))
  | None => raise (OperationalError "no such table: collections")
  end.

(** The scalar subquery [(select id from collections where name = ?)]:
    the first row's id, NULL when there is none. *)
Definition select_id (n : string) (rs : list collections.row) : option Z :=
  match filter (named n) rs with
  | r :: _ => Some (collections.id r)
  | [] => None
  end.

(** [collection_id = (select id ...)]: never true against NULL. *)
Definition collection_id_eq (sub : option Z) (r : embeddings.row) : bool :=
  match sub with
  | Some i => embeddings.collection_id r =? i
  | None => false
  end.

(** The one row of [select count( * ) as c from embeddings where
    collection_id = (select id from collections where name = ?)]. *)
Definition query_count (n : string) : M Z :=
  log (call_query "select count ... where collection_id = (select id ...)") ;;
  d <- get_db ;;
  match db_embeddings d, db_collections d with
  | Some t, Some rs =>
      ret (Z.of_nat
             (List.length
                (filter (collection_id_eq (select_id n rs)) (rows t))))
  | None, _ => raise (OperationalError "no such table: embeddings")
  | Some _, None => raise (OperationalError "no such table: collections")
  end.

(** [self.db.register_function(distance_score, replace=True)] *)
Definition register_function (fn : string) : M unit :=
  log (call_register_function fn).

(** The conditions joined by [" and "], each with its bound argument.
    [str(self.id())] is bound as text and compared under the column's
    INTEGER affinity, that is as the integer it spells. *)
Inductive where_bit : Type :=
| collection_id_is (arg : Z)      (* "collection_id = ?" *)
| id_is_not (arg : string).       (* "id != ?" *)

Definition where_bit_holds (r : embeddings.row) (b : where_bit) : bool :=
  match b with
  | collection_id_is cid => embeddings.collection_id r =? cid
  | id_is_not skip => negb (embeddings.id r =? skip)%string
  end.

Definition where_holds (bits : list where_bit) (r : embeddings.row) : bool :=
  forallb (where_bit_holds r) bits.

(** [select id, distance_score(embedding) as score]: the function is
    called on every selected row; if it raises, so does the query. *)
Fixpoint select_scores (f : bytes -> result float) (rs : list embeddings.row)
  : result (list (string * float)) :=
  match rs with
  | [] => Ok []
  | r :: rs' =>
      match f (embeddings.embedding r) with
      | Raise e => Raise e
      | Ok s =>
          match select_scores f rs' with
          | Ok l => Ok ((embeddings.id r, s) :: l)
          | Raise e => Raise e
          end
      end
  end.

(** [order by score desc]: rows of equal score stay in storage order
    (SQLite leaves their order open). *)
Fixpoint insert_desc (x : string * float) (l : list (string * float))
  : list (string * float) :=
  match l with
  | [] => [x]
  | y :: l' =>
      if score_leb (snd y) (snd x) then x :: l else y :: insert_desc x l'
  end.

Definition order_by_score_desc (l : list (string * float))
  : list (string * float) :=
  fold_right insert_desc [] l.

(** [limit n]: a negative [n] means no limit. *)
Definition limit {A : Type} (n : Z) (l : list A) : list A :=
  if n <? 0 then l else firstn (Z.to_nat n) l.

(** The query of [similar_by_vector].  [number] is pasted into the SQL
    text; a literal outside the 64-bit integers is read as a REAL, which
    LIMIT refuses. *)
Definition query_similar (f : bytes -> result float)
    (bits : list where_bit) (number : Z) : M (list (string * float)) :=
  log (call_query "select id, distance_score(embedding) as score ...") ;;
  d <- get_db ;;
  match db_embeddings d with
  | None => raise (OperationalError "no such table: embeddings")
  | Some t =>
      if (number <? min_int64) || (max_int64 <? number)
      then raise (IntegrityError "datatype mismatch")
      else
        match select_scores f (filter (where_holds bits) (rows t)) with
        | Raise _ =>
            raise (OperationalError "user-defined function raised exception")
        | Ok scored => ret (limit number (order_by_score_desc scored))
        end
  end.

End Sqlite.
End sqlite.

(** ** class Collection *)

Module Collection.
Section Methods.
Context `{L : Llm}.

Import sqlite.

Definition set_name (n : string) : M unit :=
  c <- get_self ;;
  put_self {| name := n; _model := _model c;
              _model_id := _model_id c; _id := _id c |}.

Definition set__model (m : option (EmbeddingModel float)) : M unit :=
  c <- get_self ;;
  put_self {| name := name c; _model := m;
              _model_id := _model_id c; _id := _id c |}.

Definition set__model_id (m : option string) : M unit :=
  c <- get_self ;;
  put_self {| name := name c; _model := _model c;
              _model_id := m; _id := _id c |}.

Definition set__id (i : option Z) : M unit :=
  c <- get_self ;;
  put_self {| name := name c; _model := _model c;
              _model_id := _model_id c; _id := i |}.

(** [model and model_id and model.model_id != model_id] *)
Definition mismatch (model : option (EmbeddingModel float))
    (model_id' : option string) : bool :=
  match model, model_id' with
  | Some m, Some i => truthy i && negb (model_id m =? i)%string
  | _, _ => false
  end.

(** [def model(self)] *)
Definition model : M (EmbeddingModel float) :=
  c <- get_self ;;
  match _model c with
  | Some m => ret m
  | None =>
      match get_embedding_model (_model_id c) with
      | Some m => set__model (Some m) ;; ret m
      | None =>
          raise (ValueError
            "No model_id specified and no model found with that name")
      end
  end.

(** [def id(self)] *)
Definition id : M Z :=
  c <- get_self ;;
  match _id c with
  | Some i => ret i
  | None =>
      e <- collections_exists ;;
      (if e then ret tt else embeddings_migrations_apply) ;;
      rows <- collections_rows_where (name c) ;;
      match rows with
      | row :: _ =>
          set__id (Some (collections.id row)) ;;
          c' <- get_self ;;
          (match _model_id c' with
           | None => set__model_id (Some (collections.model row))
           | Some _ => ret tt
           end) ;;
          ret (collections.id row)
      | [] =>
          (* Create it *)
          m <- model ;;
          pk <- collections_insert (name c) (model_id m) ;;
          set__id (Some pk) ;;
          ret pk
      end
  end.

(** [def __init__(self, db, name, *, model=None, model_id=None)], run on
    the new object; [self.db] is the database of the state. *)
Definition __init__ (name' : string)
    (model' : option (EmbeddingModel float)) (model_id' : option string)
  : M unit :=
  set_name name' ;;
  if mismatch model' model_id'
  then raise (ValueError "model_id does not match model.model_id")
  else
    set__model model' ;;
    set__model_id model_id' ;;
    set__id None ;;
    i <- id ;;
    set__id (Some i).

(** The object [__init__] receives, before any attribute is set. *)
Definition blank : Collection :=
  {| name := EmptyString; _model := None; _model_id := None; _id := None |}.

(** [Collection(db, name, model=..., model_id=...)] on a database with
    the calls made on it so far. *)
Definition new (d : Database) (tr : list db_call) (name' : string)
    (model' : option (EmbeddingModel float)) (model_id' : option string)
  : State * result unit :=
  __init__ name' model' model_id' {| self := blank; db := d; calls := tr |}.

(** [def exists(self)] *)
Definition exists_ : M bool :=
  c <- get_self ;;
  matches <- query_select_1 (name c) ;;
  ret (match matches with [] => false | _ :: _ => true end).

(** [def count(self)] *)
Definition count : M Z :=
  c <- get_self ;;
  query_count (name c).

(** [bool(metadata)] for a dict: false when it is empty. *)
Definition truthy_dict (metadata : list (string * json)) : bool :=
  match metadata with
  | [] => false
  | _ :: _ => true
  end.

(** [def embed(self, id, text, metadata=None, store=False)] *)
Definition embed (id' text : string)
    (metadata : option (list (string * json))) (store : bool) : M unit :=
  m <- model ;;
  let embedding := embed_text m text in
  cid <- id ;;
  embeddings_insert
    {| embeddings.collection_id := cid;
       embeddings.id := id';
       embeddings.embedding := encode embedding;
       embeddings.content := if store then Some text else None;
       embeddings.metadata :=
         match metadata with
         | Some d => if truthy_dict d then Some (json_dumps d) else None
         | None => None
         end |}.

(** [def embed_multi(self, id_text_map, store=False)] *)
Definition embed_multi (id_text_map : list (string * string))
    (store : bool) : M unit :=
  raise NotImplementedError.

(** [def embed_multi_with_metadata(self, id_text_metadata_map)] *)
Definition embed_multi_with_metadata
    (id_text_metadata_map : list (string * (string * list (string * json))))
  : M unit :=
  raise NotImplementedError.

(** The local function of [similar_by_vector]. *)
Definition distance_score (vector : list float) (other_encoded : bytes)
  : result float :=
  match decode other_encoded with
  | Ok other_vector => cosine_similarity other_vector vector
  | Raise e => Raise e
  end.

(** [def similar_by_vector(self, vector, number=5, skip_id=None)] *)
Definition similar_by_vector (vector : list float) (number : Z)
    (skip_id : option string) : M (list (string * float)) :=
  register_function "distance_score" ;;
  cid <- id ;;
  let where_bits :=
    [collection_id_is cid]
    ++ (match skip_id with
        | Some s => if truthy s then [id_is_not s] else []
        | None => []
        end) in
  query_similar (distance_score vector) where_bits number.

(** [def similar_by_id(self, id, number=5)] *)
Definition similar_by_id (id' : string) (number : Z)
  : M (list (string * float)) :=
  cid <- id ;;
  matches <- embeddings_rows_where cid id' ;;
  match matches with
  | [] => raise (ValueError "ID not found")
  | m0 :: _ =>
      match decode (embeddings.embedding m0) with
      | Raise e => raise e
      | Ok comparison_vector =>
          similar_by_vector comparison_vector number (Some id')
      end
  end.

(** [def similar(self, text, number=5)] *)
Definition similar (text : string) (number : Z)
  : M (list (string * float)) :=
  m <- model ;;
  let comparison_vector := embed_text m text in
  similar_by_vector comparison_vector number None.

End Methods.
End Collection.

(** ** A small instance to run the model on *)

Module Sample.

Definition dot (a b : list Z) : Z :=
  fold_right Z.add 0 (map (fun p => fst p * snd p) (combine a b)).

Definition toy : EmbeddingModel Z :=
  {| model_id := "toy";
     embed_text := fun text => [Z.of_nat (String.length text); 1] |}.

Definition other : EmbeddingModel Z :=
  {| model_id := "other"; embed_text := fun _ => [1; 0] |}.

(** Vectors given by their 32-bit words and packed as the codec packs
    words, a registry that knows the models "toy" and "other", and integer
    scores. *)
Definition llm : Llm :=
  {| float := Z;
     json := string;
     get_embedding_model := fun n =>
       match n with
       | Some i =>
           if (i =? "toy")%string then Some toy
           else if (i =? "other")%string then Some other
           else None
       | None => None
       end;
     encode := Codec.pack_words;
     decode := Codec.decode_words;
     cosine_similarity := fun a b => Ok (dot a b);
     json_dumps := fun _ => "{}";
     score_leb := Z.leb |}.

Definition empty_db : Database :=
  {| db_collections := None; db_embeddings := None |}.

(** One collection "docs" bound to "toy", holding the records "a", "b"
    and one whose id is the empty string. *)
Definition docs_db : Database :=
  {| db_collections :=
       Some [{| collections.id := 1; collections.name := "docs";
                collections.model := "toy" |}];
     db_embeddings :=
       Some {| keyed := true;
               rows :=
                 [{| embeddings.collection_id := 1; embeddings.id := "a";
                     embeddings.embedding := Codec.pack_words [1; 0];
                     embeddings.content := None;
                     embeddings.metadata := None |};
                  {| embeddings.collection_id := 1; embeddings.id := "b";
                     embeddings.embedding := Codec.pack_words [2; 3];
                     embeddings.content := Some "two three";
                     embeddings.metadata := None |};
                  {| embeddings.collection_id := 1;
                     embeddings.id := EmptyString;
                     embeddings.embedding := Codec.pack_words [1; 1];
                     embeddings.content := None;
                     embeddings.metadata := None |}] |} |}.

(** A handle on "docs" as its constructor leaves it. *)
Definition docs : @Collection llm :=
  {| name := "docs"; _model := None; _model_id := Some "toy";
     _id := Some 1 |}.

Definition docs_state : @State llm :=
  {| self := docs; db := docs_db; calls := [] |}.

(** The same handle before its id is resolved. *)
Definition unresolved : @Collection llm :=
  {| name := "docs"; _model := None; _model_id := None; _id := None |}.

(** A state of [h] over the database [d], no call made yet. *)
Definition on (h : @Collection llm) (d : Database) : @State llm :=
  {| self := h; db := d; calls := [] |}.

(** "docs" with no record at all, and with a single record whose id is
    the empty string. *)
Definition bare_db : Database :=
  {| db_collections := db_collections docs_db;
     db_embeddings := Some {| keyed := true; rows := [] |} |}.

Definition nameless : embeddings.row :=
  {| embeddings.collection_id := 1; embeddings.id := EmptyString;
     embeddings.embedding := Codec.pack_words [1; 1];
     embeddings.content := None;
     embeddings.metadata := None |}.

Definition lonely_db : Database :=
  {| db_collections := db_collections docs_db;
     db_embeddings := Some {| keyed := true; rows := [nameless] |} |}.

(** 1.0, 0.0, -1.0 and the smallest positive value, 2 ^ -149. *)
Definition floats : list spec_float :=
  [S754_finite false 8388608 (-23); S754_zero false;
   S754_finite true 8388608 (-23); S754_finite false 1 (-149)].

Definition docs_row : collections.row :=
  {| collections.id := 1; collections.name := "docs";
     collections.model := "toy" |}.

End Sample.

(** ** Notions used in the statements *)

(** The schema after [id()] has made sure of it: untouched when the table
    [collections] exists, migrated otherwise. *)
Definition ensured (d : Database) : Database :=
  match db_collections d with
  | Some _ => d
  | None =>
      {| db_collections := Some [];
         db_embeddings :=
           Some (match db_embeddings d with
                 | Some t => t
                 | None => {| keyed := true; rows := [] |}
                 end) |}
  end.

(** The calls by which [id()] makes sure of the schema and looks the name
    up. *)
Definition lookup_calls (d : Database) : list db_call :=
  [call_exists "collections"]
  ++ match db_collections d with
     | Some _ => []
     | None => [call_apply_migrations]
     end
  ++ [call_rows_where "collections"].

(** The first row stored under a name, if any. *)
Definition stored (d : Database) (n : string) : option collections.row :=
  match db_collections d with
  | Some rs => hd_error (filter (sqlite.named n) rs)
  | None => None
  end.

(** The record [embed] builds from the resolved model and id. *)
Definition record `{L : Llm} (cid : Z) (m : EmbeddingModel float)
    (id' text : string) (metadata : option (list (string * json)))
    (store : bool) : embeddings.row :=
  {| embeddings.collection_id := cid;
     embeddings.id := id';
     embeddings.embedding := encode (embed_text m text);
     embeddings.content := if store then Some text else None;
     embeddings.metadata :=
       match metadata with
       | Some d =>
           if Collection.truthy_dict d then Some (json_dumps d) else None
       | None => None
       end |}.

(** The message of the primary key's refusal. *)
Definition duplicate_key : exn :=
  IntegrityError
    "UNIQUE constraint failed: embeddings.collection_id, embeddings.id".

(** Descending order of scores along a result list. *)
Definition desc `{L : Llm} (x y : string * float) : Prop :=
  score_leb (snd y) (snd x) = true.

(** The conditions [similar_by_vector] queries with. *)
Definition where_bits_of (cid : Z) (skip_id : option string)
  : list sqlite.where_bit :=
  [sqlite.collection_id_is cid]
  ++ (match skip_id with
      | Some s => if truthy s then [sqlite.id_is_not s] else []
      | None => []
      end).

(** What the query of [similar_by_vector] answers from the rows of the
    [embeddings] table. *)
Definition ranked `{L : Llm} (vector : list float)
    (bits : list sqlite.where_bit) (number : Z) (rs : list embeddings.row)
  : result (list (string * float)) :=
  match sqlite.select_scores (Collection.distance_score vector)
          (filter (sqlite.where_holds bits) rs) with
  | Raise _ =>
      Raise (OperationalError "user-defined function raised exception")
  | Ok scored => Ok (sqlite.limit number (sqlite.order_by_score_desc scored))
  end.

(** The rows of the two tables, none while a table is missing. *)
Definition collection_rows (d : Database) : list collections.row :=
  match db_collections d with
  | Some rs => rs
  | None => []
  end.

Definition embedding_rows (d : Database) : list embeddings.row :=
  match db_embeddings d with
  | Some t => rows t
  | None => []
  end.

(** The model [model()] answers with for a handle built with [m] and [mi]:
    the instance if there is one, else what the registry resolves. *)
Definition bound_model `{L : Llm} (m : option (EmbeddingModel float))
    (mi : option string) : option (EmbeddingModel float) :=
  match m with
  | Some x => Some x
  | None => get_embedding_model mi
  end.

(** The row [id()] inserts for a new name, and the database after it. *)
Definition new_row (d : Database) (n mid : string) : collections.row :=
  {| collections.id := sqlite.next_rowid (collection_rows d);
     collections.name := n;
     collections.model := mid |}.

Definition created (d : Database) (n mid : string) : Database :=
  {| db_collections := Some (collection_rows d ++ [new_row d n mid]);
     db_embeddings := db_embeddings (ensured d) |}.

(** The key of an embedding record. *)
Definition key (r : embeddings.row) : Z * string :=
  (embeddings.collection_id r, embeddings.id r).

(** The two uniqueness constraints of [collections]. *)
Definition names_unique (d : Database) : Prop :=
  NoDup (map collections.name (collection_rows d)).

Definition ids_unique (d : Database) : Prop :=
  NoDup (map collections.id (collection_rows d)).

(** * Properties *)

(** Unfolds the monad so that a method's run can be computed. *)
Ltac run_monad :=
  unfold bind, ret, raise, get_self, put_self, get_db, put_db, log in *;
  simpl in *.

Ltac run_sqlite :=
  unfold sqlite.collections_exists, sqlite.embeddings_migrations_apply,
    sqlite.collections_rows_where, sqlite.collections_insert,
    sqlite.embeddings_insert, sqlite.embeddings_rows_where,
    sqlite.query_select_1, sqlite.query_count, sqlite.register_function,
    sqlite.query_similar in *.

Ltac run_setters :=
  unfold Collection.set_name, Collection.set__model,
    Collection.set__model_id, Collection.set__id in *.

(** Closes a goal [run = (s', r) -> P s' r] once the run is computed. *)
Ltac ran := intros E; inversion E; subst; simpl; auto.

(** ** Resolving the identity *)

Section Identity.
Context `{L : Llm}.

(** A handle whose [_id] is set answers [id()] from the attribute: the
    state, with its trace of database calls, is left as it was. *)
Lemma id_cached (s : State) (i : Z) :
  _id (self s) = Some i -> Collection.id s = (s, Ok i).
Proof.
  intros H. unfold Collection.id. run_monad. rewrite H. reflexivity.
Qed.

(** Whenever [id()] returns, the value is the one now cached. *)
Lemma id_resolves (s s' : State) (i : Z) :
  Collection.id s = (s', Ok i) -> _id (self s') = Some i.
Proof.
  destruct s as [[n m mi [i0|]] [dc de] tr].
  - rewrite id_cached with (i := i0) by reflexivity. ran.
  - unfold Collection.id, Collection.model.
    run_sqlite. run_setters. run_monad.
    destruct dc as [rs|]; simpl.
    + destruct (filter (sqlite.named n) rs) as [|row rest]; simpl.
      * destruct m as [m|]; simpl.
        -- destruct (existsb (sqlite.named n) rs); simpl; ran.
        -- destruct (get_embedding_model mi) as [m|]; simpl; [|ran].
           destruct (existsb (sqlite.named n) rs); simpl; ran.
      * destruct mi; simpl; ran.
    + destruct m as [m|]; simpl; [ran|].
      destruct (get_embedding_model mi) as [m|]; simpl; ran.
Qed.

(** The two errors [id()] can end in: no model for a new collection, or
    the store refusing the new row. *)
Lemma id_raises (s s' : State) (e : exn) :
  Collection.id s = (s', Raise e) ->
  e = ValueError "No model_id specified and no model found with that name"
  \/ exists msg, e = IntegrityError msg.
Proof.
  destruct s as [[n m mi [i0|]] [dc de] tr].
  - rewrite id_cached with (i := i0) by reflexivity. ran.
  - unfold Collection.id, Collection.model.
    run_sqlite. run_setters. run_monad.
    destruct dc as [rs|]; simpl.
    + destruct (filter (sqlite.named n) rs) as [|row rest]; simpl.
      * destruct m as [m|]; simpl.
        -- destruct (existsb (sqlite.named n) rs); simpl; ran; eauto.
        -- destruct (get_embedding_model mi) as [m|]; simpl; [|ran].
           destruct (existsb (sqlite.named n) rs); simpl; ran; eauto.
      * destruct mi; simpl; ran.
    + destruct m as [m|]; simpl; [ran|].
      destruct (get_embedding_model mi) as [m|]; simpl; ran.
Qed.

(** The lookup path: the first row stored under the name gives the id;
    its model is taken only by a handle that has no [_model_id]. *)
Lemma id_found (s : State) (rs rest : list collections.row)
    (row : collections.row) :
  _id (self s) = None ->
  db_collections (db s) = Some rs ->
  filter (sqlite.named (name (self s))) rs = row :: rest ->
  Collection.id s =
    ({| self :=
          {| name := name (self s);
             _model := _model (self s);
             _model_id :=
               Some (match _model_id (self s) with
                     | Some i => i
                     | None => collections.model row
                     end);
             _id := Some (collections.id row) |};
        db := db s;
        calls := calls s ++ [call_exists "collections"]
                   ++ [call_rows_where "collections"] |},
     Ok (collections.id row)).
Proof.
  destruct s as [[n m mi i0] [dc de] tr]. simpl.
  intros -> -> Hrow.
  unfold Collection.id. run_sqlite. run_setters. run_monad.
  rewrite Hrow. simpl. rewrite <- app_assoc.
  destruct mi; reflexivity.
Qed.

(** The creation path without a model: the schema is made sure of, no
    row is written, and [model()] raises. *)
Lemma id_no_model (s : State) :
  _id (self s) = None ->
  stored (db s) (name (self s)) = None ->
  _model (self s) = None ->
  get_embedding_model (_model_id (self s)) = None ->
  Collection.id s =
    ({| self := self s;
        db := ensured (db s);
        calls := calls s ++ lookup_calls (db s) |},
     Raise (ValueError
              "No model_id specified and no model found with that name")).
Proof.
  destruct s as [[n m mi i0] [dc de] tr]. unfold stored. simpl.
  intros -> Hrow -> Hreg.
  unfold Collection.id, Collection.model, ensured, lookup_calls.
  run_sqlite. run_setters. run_monad.
  destruct dc as [rs|]; simpl.
  - destruct (filter (sqlite.named n) rs); [|discriminate]. simpl.
    rewrite Hreg. rewrite <- app_assoc. reflexivity.
  - rewrite Hreg. rewrite <- !app_assoc. reflexivity.
Qed.

(** Construction over a stored name: nothing is written, and the handle
    carries the stored id. *)
Lemma new_found (d : Database) (tr : list db_call) (n : string)
    (m : option (EmbeddingModel float)) (mi : option string)
    (row : collections.row) :
  stored d n = Some row ->
  Collection.mismatch m mi = false ->
  Collection.new d tr n m mi =
    ({| self :=
          {| name := n;
             _model := m;
             _model_id :=
               Some (match mi with
                     | Some i => i
                     | None => collections.model row
                     end);
             _id := Some (collections.id row) |};
        db := d;
        calls := tr ++ lookup_calls d |},
     Ok tt).
Proof.
  unfold stored. destruct (db_collections d) as [rs|] eqn:Hd; [|discriminate].
  destruct (filter (sqlite.named n) rs) as [|row' rest] eqn:Hf;
    [discriminate|].
  simpl. intros [= ->] Hm.
  unfold Collection.new, Collection.__init__.
  unfold bind at 1. unfold Collection.set_name at 1. run_monad.
  rewrite Hm. run_setters. run_monad.
  erewrite id_found; simpl; eauto.
  unfold lookup_calls. rewrite Hd. reflexivity.
Qed.

(** The consistency check comes first: on a mismatch nothing is read or
    written. *)
Lemma new_mismatch (d : Database) (tr : list db_call) (n : string)
    (m : option (EmbeddingModel float)) (mi : option string) :
  Collection.mismatch m mi = true ->
  Collection.new d tr n m mi =
    ({| self := {| name := n; _model := None;
                   _model_id := None; _id := None |};
        db := d; calls := tr |},
     Raise (ValueError "model_id does not match model.model_id")).
Proof.
  intros Hm. unfold Collection.new, Collection.__init__.
  run_setters. run_monad. rewrite Hm. reflexivity.
Qed.

(** Without a mismatch the constructor is [id()] on the initialised
    object, and its error, if any, is not the mismatch error. *)
Lemma new_no_mismatch_error (d : Database) (tr : list db_call) (n : string)
    (m : option (EmbeddingModel float)) (mi : option string) :
  Collection.mismatch m mi = false ->
  snd (Collection.new d tr n m mi)
  <> Raise (ValueError "model_id does not match model.model_id").
Proof.
  intros Hm. unfold Collection.new, Collection.__init__.
  unfold bind at 1. unfold Collection.set_name at 1. run_monad.
  rewrite Hm. run_setters. run_monad.
  match goal with
  | |- context [Collection.id ?s] =>
      destruct (Collection.id s) as [s' [i|e]] eqn:Hid
  end; simpl.
  - discriminate.
  - apply id_raises in Hid. destruct Hid as [-> | [msg ->]]; discriminate.
Qed.

(** When the check fires: a model and a non-empty identifier that differ. *)
Lemma mismatch_true (m : option (EmbeddingModel float)) (mi : option string) :
  Collection.mismatch m mi = true <->
  exists m' i,
    m = Some m' /\ mi = Some i /\ i <> EmptyString /\ model_id m' <> i.
Proof.
  unfold Collection.mismatch, truthy. split.
  - destruct m as [m'|]; [|discriminate].
    destruct mi as [i|]; [|discriminate].
    intros H. apply andb_true_iff in H. destruct H as [H1 H2].
    apply negb_true_iff in H1, H2.
    apply String.eqb_neq in H1, H2. exists m', i. auto.
  - intros (m' & i & -> & -> & H1 & H2).
    apply String.eqb_neq in H1, H2. rewrite H1, H2. reflexivity.
Qed.

End Identity.

(** ** Claims on identity and construction *)

Section IdentityClaims.
Context `{L : Llm}.

(** C10: once [id()] has returned on a handle, every later [id()] call on
    it returns the same cached integer and leaves the state as it was, the
    trace of database calls included: nothing is read or written, whatever
    has become of the database (and of the collection's row) since. *)
Theorem id_is_cached (s s1 : State) (i : Z) :
  Collection.id s = (s1, Ok i) ->
  forall (d : Database) (tr : list db_call),
    Collection.id {| self := self s1; db := d; calls := tr |}
    = ({| self := self s1; db := d; calls := tr |}, Ok i).
Proof.
  intros Hid d tr. apply id_cached. simpl.
  apply id_resolves with (s := s). exact Hid.
Qed.

(** The handle a constructor returns has its id resolved. *)
Lemma new_resolves (d : Database) (tr : list db_call) (n : string)
    (m : option (EmbeddingModel float)) (mi : option string) (s : State) :
  Collection.new d tr n m mi = (s, Ok tt) ->
  exists i, _id (self s) = Some i.
Proof.
  unfold Collection.new, Collection.__init__.
  unfold bind at 1. unfold Collection.set_name at 1. run_monad.
  destruct (Collection.mismatch m mi); [discriminate|].
  run_setters. run_monad.
  match goal with
  | |- context [Collection.id ?s0] =>
      destruct (Collection.id s0) as [s' [i|e]]
  end; [|discriminate].
  ran. eauto.
Qed.

(** C6: [embed_multi] and [embed_multi_with_metadata] raise
    [NotImplementedError] for every argument and every state, and leave
    the handle, the database and the trace of database calls unchanged. *)
Theorem embed_multi_not_implemented (s : State)
    (id_text_map : list (string * string)) (store : bool)
    (id_text_metadata_map :
       list (string * (string * list (string * json)))) :
  Collection.embed_multi id_text_map store s = (s, Raise NotImplementedError)
  /\ Collection.embed_multi_with_metadata id_text_metadata_map s
     = (s, Raise NotImplementedError).
Proof.
  split; reflexivity.
Qed.

(** C9: constructing a handle for a name that is not stored, with neither
    a model nor a model_id, when the registry resolves no model, raises
    the "no model" [ValueError] from inside the constructor; the schema
    has been made sure of by then and no collection row is written. *)
Theorem new_without_model_fails (d : Database) (tr : list db_call)
    (n : string) :
  stored d n = None ->
  get_embedding_model None = None ->
  Collection.new d tr n None None =
    ({| self := {| name := n; _model := None;
                   _model_id := None; _id := None |};
        db := ensured d;
        calls := tr ++ lookup_calls d |},
     Raise (ValueError
              "No model_id specified and no model found with that name"))
  /\ stored (ensured d) n = None.
Proof.
  intros Hn Hreg. split.
  - unfold Collection.new, Collection.__init__.
    run_setters. run_monad.
    rewrite id_no_model; simpl; auto.
  - unfold stored, ensured in *.
    destruct (db_collections d) eqn:Hd; simpl; [rewrite Hd|]; auto.
Qed.

(** C8, at the input that breaks it: a model instance together with the
    empty string as model_id.  The two identifiers differ, yet the check
    does not fire and construction over a stored name succeeds. *)
Theorem new_accepts_empty_model_id (d : Database) (tr : list db_call)
    (n : string) (m : EmbeddingModel float) (row : collections.row) :
  stored d n = Some row ->
  model_id m <> EmptyString ->
  Collection.mismatch (Some m) (Some EmptyString) = false
  /\ snd (Collection.new d tr n (Some m) (Some EmptyString)) = Ok tt.
Proof.
  intros Hrow Hm. split; [reflexivity|].
  rewrite new_found with (row := row); auto.
Qed.

(** C1, amended: over a stored name every construction that passes the
    consistency check succeeds and yields the stored integer id, whatever
    model or model_id it is given; the handle's model_id is the stored one
    when no model_id was passed, and the caller's otherwise. *)
Theorem identity_stability (d : Database) (tr : list db_call) (n : string)
    (row : collections.row)
    (m1 m2 : option (EmbeddingModel float)) (mi1 mi2 : option string) :
  stored d n = Some row ->
  Collection.mismatch m1 mi1 = false ->
  Collection.mismatch m2 mi2 = false ->
  let first := Collection.new d tr n m1 mi1 in
  let second :=
    Collection.new (db (fst first)) (calls (fst first)) n m2 mi2 in
  snd first = Ok tt /\ snd second = Ok tt
  /\ db (fst second) = d
  /\ _id (self (fst first)) = Some (collections.id row)
  /\ _id (self (fst second)) = Some (collections.id row)
  /\ _model_id (self (fst first))
     = Some (match mi1 with Some i => i | None => collections.model row end)
  /\ _model_id (self (fst second))
     = Some (match mi2 with Some i => i | None => collections.model row end).
Proof.
  intros Hrow H1 H2 first second. subst first second.
  rewrite (new_found d tr n m1 mi1 row Hrow H1). simpl.
  rewrite (new_found d _ n m2 mi2 row Hrow H2). simpl.
  repeat split; reflexivity.
Qed.

End IdentityClaims.

(** Witness of C10: a handle resolved on the sample store still answers 1
    on an empty database. *)
Lemma id_is_cached_witness :
  let s0 := Sample.on Sample.unresolved Sample.docs_db in
  let s1 := fst (Collection.id s0) in
  Collection.id s0 = (s1, Ok 1)
  /\ Collection.id (Sample.on (self s1) Sample.empty_db)
     = (Sample.on (self s1) Sample.empty_db, Ok 1).
Proof.
  intros s0 s1. split.
  - reflexivity.
  - apply (id_is_cached (L := Sample.llm) s0 s1 1). reflexivity.
Defined.

(** Witness of C9: the sample registry resolves nothing for [None], and
    the empty database stores no name. *)
Lemma new_without_model_fails_witness :
  stored Sample.empty_db "docs" = None
  /\ @get_embedding_model Sample.llm None = None
  /\ snd (@Collection.new Sample.llm Sample.empty_db [] "docs" None None)
     = Raise (ValueError
                "No model_id specified and no model found with that name").
Proof.
  split; [reflexivity|]. split; [reflexivity|].
  rewrite (proj1 (new_without_model_fails (L := Sample.llm)
                    Sample.empty_db [] "docs" eq_refl eq_refl)).
  reflexivity.
Defined.

(** Witness of C8's failing input on the sample store. *)
Lemma new_accepts_empty_model_id_witness :
  stored Sample.docs_db "docs" = Some Sample.docs_row
  /\ model_id Sample.other <> EmptyString
  /\ snd (@Collection.new Sample.llm Sample.docs_db [] "docs"
            (Some Sample.other) (Some EmptyString)) = Ok tt.
Proof.
  split; [reflexivity|]. split; [discriminate|].
  apply (new_accepts_empty_model_id (L := Sample.llm) Sample.docs_db []
           "docs" Sample.other _ eq_refl).
  discriminate.
Defined.

(** Witness of C1 as amended: two handles on "docs", the second one built
    with another model instance. *)
Lemma identity_stability_witness :
  let first := @Collection.new Sample.llm Sample.docs_db [] "docs" None None in
  let second :=
    @Collection.new Sample.llm (db (fst first)) (calls (fst first)) "docs"
      (Some Sample.other) None in
  _id (self (fst first)) = Some 1 /\ _id (self (fst second)) = Some 1
  /\ _model_id (self (fst first)) = Some "toy"
  /\ _model_id (self (fst second)) = Some "toy".
Proof.
  destruct (identity_stability (L := Sample.llm) Sample.docs_db [] "docs"
              Sample.docs_row
              None (Some Sample.other) None None eq_refl eq_refl eq_refl)
    as (_ & _ & _ & H1 & H2 & H3 & H4).
  repeat split; assumption.
Defined.

(** Counterexample to C1 as stated: on the sample store, where "docs" is
    bound to "toy", a second handle built with [model_id="other"] has the
    same id but keeps "other" as its model_id, and [model()] resolves the
    model "other" for it. *)
Lemma identity_stability_counterexample :
  let first := @Collection.new Sample.llm Sample.docs_db [] "docs" None None in
  let second :=
    @Collection.new Sample.llm (db (fst first)) (calls (fst first)) "docs"
      None (Some "other") in
  snd first = Ok tt /\ snd second = Ok tt
  /\ _id (self (fst second)) = _id (self (fst first))
  /\ _model_id (self (fst first)) = Some "toy"
  /\ _model_id (self (fst second)) = Some "other"
  /\ _model_id (self (fst second)) <> _model_id (self (fst first))
  /\ snd (Collection.model (fst first)) = Ok Sample.toy
  /\ snd (Collection.model (fst second)) = Ok Sample.other.
Proof.
  simpl. repeat split; discriminate.
Qed.

(** ** Counting and inserting *)

Section Records.
Context `{L : Llm}.

Lemma filter_nothing {A : Type} (p : A -> bool) (l : list A) :
  (forall x, In x l -> p x = false) -> filter p l = [].
Proof.
  induction l as [|a l IH]; simpl; intros H; [reflexivity|].
  rewrite (H a) by auto. apply IH. intros x Hx. apply H. auto.
Qed.

(** [count()] is the number of rows the subquery's id selects. *)
Lemma count_run (s : State) (rs : list collections.row)
    (t : embeddings_table) :
  db_collections (db s) = Some rs ->
  db_embeddings (db s) = Some t ->
  snd (Collection.count s)
  = Ok (Z.of_nat (List.length
          (filter (sqlite.collection_id_eq
                     (sqlite.select_id (name (self s)) rs)) (rows t)))).
Proof.
  intros Hc He. unfold Collection.count. run_sqlite. run_monad.
  rewrite Hc, He. reflexivity.
Qed.

(** C3: with both tables in place, [count()] returns 0, and raises
    nothing, when no collection row bears the name; it also returns 0
    when the name is stored and no embedding row carries its id. *)
Theorem count_is_zero (s : State) (rs : list collections.row)
    (t : embeddings_table) :
  db_collections (db s) = Some rs ->
  db_embeddings (db s) = Some t ->
  ((forall r, In r rs -> collections.name r <> name (self s)) ->
   snd (Collection.count s) = Ok 0)
  /\ (forall row,
        stored (db s) (name (self s)) = Some row ->
        (forall e, In e (rows t) ->
                   embeddings.collection_id e <> collections.id row) ->
        snd (Collection.count s) = Ok 0).
Proof.
  intros Hc He. rewrite (count_run s rs t Hc He). split.
  - intros Hname.
    assert (Hsub : sqlite.select_id (name (self s)) rs = None).
    { unfold sqlite.select_id. rewrite filter_nothing; [reflexivity|].
      intros r Hr. apply String.eqb_neq. auto. }
    rewrite Hsub. rewrite filter_nothing; [reflexivity|].
    intros e _. reflexivity.
  - intros row Hrow Hnone.
    assert (Hsub : sqlite.select_id (name (self s)) rs
                   = Some (collections.id row)).
    { unfold stored in Hrow. rewrite Hc in Hrow. unfold sqlite.select_id.
      destruct (filter (sqlite.named (name (self s))) rs);
        simpl in Hrow; [discriminate|].
      injection Hrow as ->. reflexivity. }
    rewrite Hsub. rewrite filter_nothing; [reflexivity|].
    intros e He'. simpl. apply Z.eqb_neq. auto.
Qed.

(** [model()] leaves everything but [_model] alone, and caches what it
    returns. *)
Lemma model_frame (s s' : State) (r : result (EmbeddingModel float)) :
  Collection.model s = (s', r) ->
  db s' = db s /\ calls s' = calls s
  /\ _id (self s') = _id (self s)
  /\ (forall m, r = Ok m -> _model (self s') = Some m).
Proof.
  destruct s as [[n m mi i] d tr].
  unfold Collection.model. run_setters. run_monad.
  destruct m as [m|]; simpl.
  - intros E. inversion E. subst. simpl. repeat split; auto.
    intros m' [= ->]. reflexivity.
  - destruct (get_embedding_model mi) as [m|]; simpl;
      intros E; inversion E; subst; simpl; repeat split; auto.
    + intros m' [= ->]. reflexivity.
    + discriminate.
Qed.

Lemma model_cached (s : State) (m : EmbeddingModel float) :
  _model (self s) = Some m -> Collection.model s = (s, Ok m).
Proof.
  intros H. unfold Collection.model. run_monad. rewrite H. reflexivity.
Qed.

(** [id()] keeps an existing [embeddings] table and a bound model. *)
Lemma id_frame (s s' : State) (r : result Z) :
  Collection.id s = (s', r) ->
  (forall t, db_embeddings (db s) = Some t -> db_embeddings (db s') = Some t)
  /\ (forall m, _model (self s) = Some m -> _model (self s') = Some m).
Proof.
  destruct s as [[n m mi [i0|]] [dc de] tr].
  - rewrite id_cached with (i := i0) by reflexivity. ran.
  - unfold Collection.id, Collection.model.
    run_sqlite. run_setters. run_monad.
    destruct dc as [rs|]; simpl.
    + destruct (filter (sqlite.named n) rs) as [|row rest]; simpl.
      * destruct m as [m|]; simpl.
        -- destruct (existsb (sqlite.named n) rs); simpl; ran.
        -- destruct (get_embedding_model mi) as [m|]; simpl;
             [|ran; split; auto; discriminate].
           destruct (existsb (sqlite.named n) rs); simpl; ran;
             split; auto; discriminate.
      * destruct mi; simpl; ran.
    + destruct m as [m|]; simpl.
      * ran. split; auto. intros t ->. reflexivity.
      * destruct (get_embedding_model mi) as [m|]; simpl; ran;
          (split; [intros t ->; reflexivity | discriminate]).
Qed.

(** [embed] is [model()], then [id()], then the insert. *)
Lemma embed_run (s : State) (id' text : string)
    (metadata : option (list (string * json))) (store : bool) :
  Collection.embed id' text metadata store s =
    match Collection.model s with
    | (s1, Raise e) => (s1, Raise e)
    | (s1, Ok m) =>
        match Collection.id s1 with
        | (s2, Raise e) => (s2, Raise e)
        | (s2, Ok cid) =>
            sqlite.embeddings_insert
              (record cid m id' text metadata store) s2
        end
    end.
Proof.
  unfold Collection.embed, bind.
  destruct (Collection.model s) as [s1 [m|e]]; [|reflexivity].
  destruct (Collection.id s1) as [s2 [cid|e]]; reflexivity.
Qed.

Lemma filter_not_exists {A : Type} (p : A -> bool) (l : list A) :
  existsb p l = false -> filter p l = [].
Proof.
  induction l as [|a l IH]; simpl; [reflexivity|].
  destruct (p a); simpl; [discriminate|]. exact IH.
Qed.

(** C5: with the keyed [embeddings] table in place, once [embed] has
    stored a record under an id, a second [embed] under the same id, with
    any text, metadata and store flag, raises the primary key's
    IntegrityError and leaves handle and database as they were; before
    and after it the first record is the one row found under that id. *)
Theorem embed_twice_fails (s s1 : State) (t : embeddings_table)
    (id' text1 text2 : string)
    (metadata1 metadata2 : option (list (string * json)))
    (store1 store2 : bool) :
  db_embeddings (db s) = Some t ->
  keyed t = true ->
  Collection.embed id' text1 metadata1 store1 s = (s1, Ok tt) ->
  exists cid m,
    let first := record cid m id' text1 metadata1 store1 in
    let second := Collection.embed id' text2 metadata2 store2 s1 in
    snd (sqlite.embeddings_rows_where cid id' s1) = Ok [first]
    /\ snd second = Raise duplicate_key
    /\ self (fst second) = self s1
    /\ db (fst second) = db s1
    /\ snd (sqlite.embeddings_rows_where cid id' (fst second)) = Ok [first].
Proof.
  intros Ht Hk. rewrite embed_run.
  destruct (Collection.model s) as [sa [m|e]] eqn:Hm; [|discriminate].
  destruct (Collection.id sa) as [sb [cid|e]] eqn:Hi; [|discriminate].
  destruct (model_frame _ _ _ Hm) as (Hdb & _ & _ & Hmod).
  destruct (id_frame _ _ _ Hi) as (Hemb & Hkeep).
  assert (Htb : db_embeddings (db sb) = Some t)
    by (apply Hemb; rewrite Hdb; exact Ht).
  assert (Hmb : _model (self sb) = Some m) by (apply Hkeep, Hmod; reflexivity).
  assert (Hib : _id (self sb) = Some cid) by (eapply id_resolves; eauto).
  unfold sqlite.embeddings_insert. run_monad. rewrite Htb, Hk. simpl.
  destruct (existsb (sqlite.keyed_as cid id') (rows t)) eqn:Hex;
    [discriminate|].
  intros E. inversion E. subst s1. clear E.
  exists cid, m. simpl.
  rewrite embed_run.
  rewrite model_cached with (m := m) by exact Hmb.
  rewrite id_cached with (i := cid) by exact Hib.
  unfold sqlite.embeddings_insert, sqlite.embeddings_rows_where.
  run_monad.
  assert (Hdup : existsb (sqlite.keyed_as cid id')
                   (rows t ++ [record cid m id' text1 metadata1 store1])
                 = true).
  { rewrite existsb_app, Hex. unfold sqlite.keyed_as. simpl.
    rewrite Z.eqb_refl, String.eqb_refl. reflexivity. }
  assert (Hone : filter (sqlite.keyed_as cid id')
                   (rows t ++ [record cid m id' text1 metadata1 store1])
                 = [record cid m id' text1 metadata1 store1]).
  { rewrite filter_app, (filter_not_exists _ _ Hex).
    unfold sqlite.keyed_as. simpl.
    rewrite Z.eqb_refl, String.eqb_refl. reflexivity. }
  rewrite Hdup. simpl. rewrite Hone.
  repeat split; reflexivity.
Qed.

End Records.

(** Witness of C3: a name that was never created, on a migrated database;
    and "docs" stored without any record. *)
Lemma count_is_zero_witness :
  snd (Collection.count (Sample.on Sample.docs (ensured Sample.empty_db)))
  = Ok 0
  /\ stored Sample.bare_db "docs" = Some Sample.docs_row
  /\ snd (Collection.count (Sample.on Sample.docs Sample.bare_db)) = Ok 0.
Proof.
  split; [|split; [reflexivity|]].
  - apply (proj1 (count_is_zero (L := Sample.llm)
                    (Sample.on Sample.docs (ensured Sample.empty_db))
                    [] {| keyed := true; rows := [] |} eq_refl eq_refl)).
    intros r [].
  - apply (proj2 (count_is_zero (L := Sample.llm)
                    (Sample.on Sample.docs Sample.bare_db)
                    [Sample.docs_row] {| keyed := true; rows := [] |}
                    eq_refl eq_refl) Sample.docs_row eq_refl).
    intros e [].
Defined.

(** Witness of C5: a record "c" embedded twice into "docs". *)
Lemma embed_twice_fails_witness :
  let s1 := fst (Collection.embed "c" "first" None true Sample.docs_state) in
  Collection.embed "c" "first" None true Sample.docs_state = (s1, Ok tt)
  /\ snd (Collection.embed "c" "second" None false s1) = Raise duplicate_key.
Proof.
  intros s1. split; [reflexivity|].
  destruct (embed_twice_fails (L := Sample.llm) Sample.docs_state s1
              {| keyed := true;
                 rows := match db_embeddings Sample.docs_db with
                         | Some t => rows t
                         | None => []
                         end |}
              "c" "first" "second" None None true false
              eq_refl eq_refl eq_refl)
    as (cid & m & _ & H & _).
  exact H.
Defined.

(** ** Similarity search *)

Section Ranking.
Context `{L : Llm}.

Lemma insert_desc_In (x z : string * float) (l : list (string * float)) :
  In z (sqlite.insert_desc x l) <-> z = x \/ In z l.
Proof.
  induction l as [|y l IH]; simpl.
  - intuition congruence.
  - destruct (score_leb (snd y) (snd x)); simpl; [intuition congruence|].
    rewrite IH. intuition congruence.
Qed.

Lemma insert_desc_length (x : string * float) (l : list (string * float)) :
  List.length (sqlite.insert_desc x l) = S (List.length l).
Proof.
  induction l as [|y l IH]; simpl; [reflexivity|].
  destruct (score_leb (snd y) (snd x)); simpl; [reflexivity|].
  rewrite IH. reflexivity.
Qed.

Lemma order_by_In (z : string * float) (l : list (string * float)) :
  In z (sqlite.order_by_score_desc l) <-> In z l.
Proof.
  induction l as [|x l IH]; simpl; [reflexivity|].
  rewrite insert_desc_In, IH. intuition congruence.
Qed.

Lemma order_by_length (l : list (string * float)) :
  List.length (sqlite.order_by_score_desc l) = List.length l.
Proof.
  induction l as [|x l IH]; simpl; [reflexivity|].
  rewrite insert_desc_length, IH. reflexivity.
Qed.

Section Ordered.
Hypothesis total : forall a b : float,
  score_leb a b = true \/ score_leb b a = true.
Hypothesis trans : forall a b c : float,
  score_leb a b = true -> score_leb b c = true -> score_leb a c = true.

Lemma insert_desc_sorted (x : string * float) (l : list (string * float)) :
  StronglySorted desc l -> StronglySorted desc (sqlite.insert_desc x l).
Proof.
  induction l as [|y l IH]; simpl; intros Hs.
  - constructor; constructor.
  - apply StronglySorted_inv in Hs. destruct Hs as [Hl Hy].
    destruct (score_leb (snd y) (snd x)) eqn:Hyx.
    + constructor; [constructor; assumption|].
      constructor; [exact Hyx|].
      rewrite Forall_forall in *. intros z Hz.
      unfold desc in *. eapply trans; [apply Hy, Hz | exact Hyx].
    + constructor; [apply IH, Hl|].
      rewrite Forall_forall in *. intros z Hz.
      apply insert_desc_In in Hz. destruct Hz as [-> | Hz]; [|auto].
      unfold desc. destruct (total (snd x) (snd y)); congruence.
Qed.

Lemma order_by_sorted (l : list (string * float)) :
  StronglySorted desc (sqlite.order_by_score_desc l).
Proof.
  induction l as [|x l IH]; simpl; [constructor|].
  apply insert_desc_sorted, IH.
Qed.

End Ordered.

Lemma firstn_incl {A : Type} (k : nat) (l : list A) (z : A) :
  In z (firstn k l) -> In z l.
Proof.
  revert l. induction k as [|k IH]; intros [|a l]; simpl; try tauto.
  intros [-> | Hz]; auto.
Qed.

Lemma firstn_sorted {A : Type} (R : A -> A -> Prop) (k : nat) (l : list A) :
  StronglySorted R l -> StronglySorted R (firstn k l).
Proof.
  revert l. induction k as [|k IH]; intros l Hs; simpl; [constructor|].
  destruct l as [|a l]; [constructor|].
  apply StronglySorted_inv in Hs. destruct Hs as [Hl Ha].
  constructor; [apply IH, Hl|].
  rewrite Forall_forall in *. intros z Hz. apply Ha.
  revert Hz. apply firstn_incl.
Qed.

Lemma limit_sorted {A : Type} (R : A -> A -> Prop) (n : Z) (l : list A) :
  StronglySorted R l -> StronglySorted R (sqlite.limit n l).
Proof.
  unfold sqlite.limit. destruct (n <? 0); [auto|]. apply firstn_sorted.
Qed.

Lemma limit_In {A : Type} (n : Z) (l : list A) (z : A) :
  In z (sqlite.limit n l) -> In z l.
Proof.
  unfold sqlite.limit. destruct (n <? 0); [auto|]. apply firstn_incl.
Qed.

Lemma limit_length {A : Type} (n : Z) (l : list A) :
  0 <= n -> Z.of_nat (List.length (sqlite.limit n l)) <= n.
Proof.
  intros Hn. unfold sqlite.limit.
  destruct (n <? 0) eqn:Hneg; [apply Z.ltb_lt in Hneg; lia|].
  rewrite length_firstn. lia.
Qed.

Lemma select_scores_ids (f : bytes -> result float)
    (rs : list embeddings.row) (l : list (string * float)) :
  sqlite.select_scores f rs = Ok l -> map fst l = map embeddings.id rs.
Proof.
  revert l. induction rs as [|r rs IH]; simpl; intros l.
  - intros [= <-]. reflexivity.
  - destruct (f (embeddings.embedding r)) as [sc|e]; [|discriminate].
    destruct (sqlite.select_scores f rs) as [l'|e]; [|discriminate].
    intros [= <-]. simpl. rewrite (IH l' eq_refl). reflexivity.
Qed.

Lemma select_scores_total (f : bytes -> result float)
    (rs : list embeddings.row) :
  (forall r, In r rs -> exists sc, f (embeddings.embedding r) = Ok sc) ->
  exists l, sqlite.select_scores f rs = Ok l.
Proof.
  induction rs as [|r rs IH]; simpl; intros H; [eauto|].
  destruct (H r) as [sc ->]; [auto|].
  destruct IH as [l ->]; [auto|]. eauto.
Qed.

(** On a resolved handle [similar_by_vector] answers from the rows of the
    [embeddings] table; a [number] within the 64-bit integers is accepted
    by LIMIT. *)
Lemma similar_by_vector_run (s : State) (cid : Z) (t : embeddings_table)
    (vector : list float) (number : Z) (skip_id : option string) :
  _id (self s) = Some cid ->
  db_embeddings (db s) = Some t ->
  sqlite.min_int64 <= number <= sqlite.max_int64 ->
  snd (Collection.similar_by_vector vector number skip_id s)
  = ranked vector (where_bits_of cid skip_id) number (rows t).
Proof.
  intros Hid Ht Hn.
  unfold Collection.similar_by_vector, sqlite.register_function.
  run_monad.
  rewrite (id_cached _ cid) by exact Hid.
  unfold sqlite.query_similar. run_monad. rewrite Ht.
  destruct ((number <? sqlite.min_int64) || (sqlite.max_int64 <? number))
    eqn:Hr.
  - apply orb_true_iff in Hr. rewrite !Z.ltb_lt in Hr. lia.
  - unfold ranked, where_bits_of.
    destruct (sqlite.select_scores _ _); reflexivity.
Qed.

(** Whatever the handle, a list returned by [similar_by_vector] is the
    ranking of some table's rows under the handle's id. *)
Lemma similar_by_vector_Ok (s s' : State) (vector : list float)
    (number : Z) (skip_id : option string) (l : list (string * float)) :
  Collection.similar_by_vector vector number skip_id s = (s', Ok l) ->
  exists cid t,
    ranked vector (where_bits_of cid skip_id) number (rows t) = Ok l.
Proof.
  unfold Collection.similar_by_vector, sqlite.register_function.
  run_monad.
  match goal with
  | |- context [Collection.id ?s0] =>
      destruct (Collection.id s0) as [s1 [cid|e]]
  end; [|discriminate].
  unfold sqlite.query_similar. run_monad.
  destruct (db_embeddings (db s1)) as [t|]; [|discriminate].
  destruct ((number <? sqlite.min_int64) || (sqlite.max_int64 <? number));
    [discriminate|].
  intros E. exists cid, t. unfold ranked, where_bits_of.
  destruct (sqlite.select_scores _ _); inversion E. reflexivity.
Qed.

(** A ranking queried with a non-empty [skip_id] does not list it. *)
Lemma ranked_excludes (vector : list float) (cid number : Z)
    (id' : string) (rs : list embeddings.row) (l : list (string * float)) :
  truthy id' = true ->
  ranked vector (where_bits_of cid (Some id')) number rs = Ok l ->
  ~ In id' (map fst l).
Proof.
  intros Hid. unfold ranked, where_bits_of. rewrite Hid.
  destruct (sqlite.select_scores _ _) as [scored|e] eqn:Hs; [|discriminate].
  intros [= <-] Hin.
  apply in_map_iff in Hin. destruct Hin as (z & Hz & Hin).
  apply limit_In in Hin. apply (proj1 (order_by_In _ _)) in Hin.
  apply (in_map fst) in Hin. rewrite (select_scores_ids _ _ _ Hs) in Hin.
  apply in_map_iff in Hin. destruct Hin as (r & Hr & Hin).
  apply filter_In in Hin. destruct Hin as [_ Hw].
  unfold sqlite.where_holds in Hw. simpl in Hw.
  rewrite Hr, Hz, String.eqb_refl in Hw. simpl in Hw.
  rewrite andb_false_r in Hw. discriminate.
Qed.

(** The part of C2 the code keeps: for a non-empty id, what
    [similar_by_id] returns never lists that id. *)
Lemma similar_by_id_excludes (s s' : State) (id' : string) (number : Z)
    (l : list (string * float)) :
  truthy id' = true ->
  Collection.similar_by_id id' number s = (s', Ok l) ->
  ~ In id' (map fst l).
Proof.
  intros Hid. unfold Collection.similar_by_id. unfold bind at 1.
  destruct (Collection.id s) as [s1 [cid|e]]; [|discriminate].
  unfold bind at 1.
  destruct (sqlite.embeddings_rows_where cid id' s1) as [s2 [ms|e]];
    [|discriminate].
  destruct ms as [|m0 ms]; [discriminate|].
  destruct (decode (embeddings.embedding m0)) as [v|e]; [|discriminate].
  intros E. apply similar_by_vector_Ok in E. destruct E as (cid' & t & E).
  eapply ranked_excludes; eauto.
Qed.

Lemma filter_andb {A : Type} (p q : A -> bool) (l : list A) :
  filter (fun x => p x && q x) l = filter q (filter p l).
Proof.
  induction l as [|a l IH]; simpl; [reflexivity|].
  destruct (p a); simpl; [|exact IH].
  destruct (q a); rewrite IH; reflexivity.
Qed.

(** C2, at the input that breaks it: a collection whose only record has
    the empty string as id.  [similar_by_id] passes it on as [skip_id],
    which is falsy, so no exclusion is queried and the record is returned
    as its own neighbour. *)
Theorem similar_by_id_returns_empty_id (s : State) (cid : Z)
    (t : embeddings_table) (r : embeddings.row) (v : list float)
    (sc : float) (number : Z) :
  _id (self s) = Some cid ->
  db_embeddings (db s) = Some t ->
  filter (fun e => embeddings.collection_id e =? cid) (rows t) = [r] ->
  embeddings.id r = EmptyString ->
  decode (embeddings.embedding r) = Ok v ->
  cosine_similarity v v = Ok sc ->
  1 <= number <= sqlite.max_int64 ->
  snd (Collection.similar_by_id EmptyString number s)
  = Ok [(EmptyString, sc)].
Proof.
  intros Hid Ht Hone Hr Hv Hsc Hn.
  unfold Collection.similar_by_id. unfold bind at 1.
  rewrite (id_cached _ cid Hid).
  unfold sqlite.embeddings_rows_where. run_monad. rewrite Ht.
  unfold sqlite.keyed_as. rewrite filter_andb, Hone. simpl.
  rewrite Hr. simpl. rewrite Hv.
  rewrite similar_by_vector_run with (cid := cid) (t := t);
    [| exact Hid | exact Ht
     | unfold sqlite.min_int64, sqlite.max_int64 in *; lia].
  unfold ranked, where_bits_of. simpl.
  replace (filter (sqlite.where_holds [sqlite.collection_id_is cid]) (rows t))
    with [r].
  - simpl. unfold Collection.distance_score. rewrite Hv, Hsc, Hr. simpl.
    unfold sqlite.limit.
    destruct (number <? 0) eqn:Hneg; [reflexivity|].
    destruct (Z.to_nat number) eqn:Hk; [lia|].
    simpl. rewrite firstn_nil. reflexivity.
  - rewrite <- Hone. apply filter_ext. intros e.
    unfold sqlite.where_holds. simpl. rewrite andb_true_r. reflexivity.
Qed.

(** C7, amended: on a resolved handle over an existing [embeddings]
    table, for [0 <= number] within the 64-bit integers and scores that
    SQLite orders totally, whenever the scoring function succeeds on the
    collection's records [similar_by_vector] returns a list of at most
    [number] pairs sorted by descending score; and for any [number]
    within the 64-bit integers it returns the empty list when the
    collection has no record. *)
Theorem similar_by_vector_ranked (s : State) (cid : Z)
    (t : embeddings_table) (vector : list float) (number : Z)
    (skip_id : option string) :
  _id (self s) = Some cid ->
  db_embeddings (db s) = Some t ->
  (forall a b : float, score_leb a b = true \/ score_leb b a = true) ->
  (forall a b c : float,
     score_leb a b = true -> score_leb b c = true -> score_leb a c = true) ->
  (0 <= number <= sqlite.max_int64 ->
   (forall r, In r (rows t) -> embeddings.collection_id r = cid ->
              exists sc,
                Collection.distance_score vector (embeddings.embedding r)
                = Ok sc) ->
   exists l,
     snd (Collection.similar_by_vector vector number skip_id s) = Ok l
     /\ Z.of_nat (List.length l) <= number
     /\ StronglySorted desc l)
  /\ (sqlite.min_int64 <= number <= sqlite.max_int64 ->
      (forall r, In r (rows t) -> embeddings.collection_id r <> cid) ->
      snd (Collection.similar_by_vector vector number skip_id s) = Ok []).
Proof.
  intros Hid Ht total trans. split.
  - intros Hn Hscore.
    rewrite similar_by_vector_run with (cid := cid) (t := t);
      [| exact Hid | exact Ht
       | unfold sqlite.min_int64, sqlite.max_int64 in *; lia].
    unfold ranked.
    destruct (select_scores_total (Collection.distance_score vector)
                (filter (sqlite.where_holds (where_bits_of cid skip_id))
                   (rows t))) as [scored Hs].
    { intros r Hr. apply filter_In in Hr. destruct Hr as [Hr Hw].
      apply Hscore; [exact Hr|].
      unfold sqlite.where_holds, where_bits_of in Hw. simpl in Hw.
      apply andb_true_iff in Hw. destruct Hw as [Hw _].
      apply Z.eqb_eq. exact Hw. }
    rewrite Hs. eexists. split; [reflexivity|]. split.
    + apply limit_length. lia.
    + apply limit_sorted, order_by_sorted; assumption.
  - intros Hn Hnone.
    rewrite similar_by_vector_run with (cid := cid) (t := t);
      [| exact Hid | exact Ht | exact Hn].
    unfold ranked. rewrite filter_nothing.
    + simpl. unfold sqlite.limit. destruct (number <? 0); [reflexivity|].
      apply f_equal, firstn_nil.
    + intros r Hr. unfold sqlite.where_holds, where_bits_of. simpl.
      apply Hnone in Hr. apply Z.eqb_neq in Hr. rewrite Hr. reflexivity.
Qed.

End Ranking.

(** Witness of C2's failing input: "docs" holding only the record whose
    id is the empty string. *)
Lemma similar_by_id_returns_empty_id_witness :
  snd (Collection.similar_by_id EmptyString 5
         (Sample.on Sample.docs Sample.lonely_db))
  = Ok [(EmptyString, 2)].
Proof.
  apply (similar_by_id_returns_empty_id (L := Sample.llm)
           (Sample.on Sample.docs Sample.lonely_db) 1
           {| keyed := true; rows := [Sample.nameless] |}
           Sample.nameless [1; 1] 2 5);
    try reflexivity.
  unfold sqlite.max_int64. lia.
Defined.

(** The same on the three records of the sample store: the empty id is
    listed among its own neighbours, "a" is not. *)
Example similar_by_id_on_docs :
  snd (Collection.similar_by_id EmptyString 5 Sample.docs_state)
  = Ok [("b", 5); (EmptyString, 2); ("a", 1)]
  /\ snd (Collection.similar_by_id "a" 5 Sample.docs_state)
     = Ok [("b", 2); (EmptyString, 1)].
Proof.
  split; reflexivity.
Qed.

(** Witness of C7 as amended: the two best of "docs", and no result on the
    collection without records. *)
Lemma similar_by_vector_ranked_witness :
  snd (Collection.similar_by_vector (L := Sample.llm) [1; 1] 2 None
         Sample.docs_state)
  = Ok [("b", 5); (EmptyString, 2)]
  /\ (exists l,
        snd (Collection.similar_by_vector (L := Sample.llm) [1; 1] 2 None
               Sample.docs_state)
        = Ok l
        /\ Z.of_nat (List.length l) <= 2
        /\ StronglySorted (desc (L := Sample.llm)) l)
  /\ snd (Collection.similar_by_vector (L := Sample.llm) [1; 1] 2 None
            (Sample.on Sample.docs Sample.bare_db)) = Ok [].
Proof.
  assert (total : forall a b : Z, (a <=? b) = true \/ (b <=? a) = true).
  { intros a b. rewrite !Z.leb_le. lia. }
  assert (trans : forall a b c : Z,
             (a <=? b) = true -> (b <=? c) = true -> (a <=? c) = true).
  { intros a b c. rewrite !Z.leb_le. lia. }
  split; [reflexivity|]. split.
  - apply (proj1 (similar_by_vector_ranked (L := Sample.llm)
                    Sample.docs_state 1
                    {| keyed := true;
                       rows := match db_embeddings Sample.docs_db with
                               | Some t => rows t
                               | None => []
                               end |}
                    [1; 1] 2 None eq_refl eq_refl total trans)).
    + unfold sqlite.max_int64. lia.
    + intros r Hr _. simpl in Hr.
      destruct Hr as [<- | [<- | [<- | []]]]; eexists; reflexivity.
  - apply (proj2 (similar_by_vector_ranked (L := Sample.llm)
                    (Sample.on Sample.docs Sample.bare_db) 1
                    {| keyed := true; rows := [] |}
                    [1; 1] 2 None eq_refl eq_refl total trans)).
    + unfold sqlite.min_int64, sqlite.max_int64. lia.
    + intros r [].
Defined.

(** Counterexample to C7 as stated: with [number = -1] LIMIT does not
    bound the result, and the three records of "docs" come back. *)
Lemma similar_by_vector_counterexample :
  exists l,
    snd (Collection.similar_by_vector (L := Sample.llm) [1; 1] (-1) None
           Sample.docs_state)
    = Ok l
    /\ ~ Z.of_nat (List.length l) <= -1.
Proof.
  exists [("b", 5); (EmptyString, 2); ("a", 1)]. split; [reflexivity|].
  simpl. lia.
Qed.

(** ** The codec *)

Section CodecFacts.
Import Codec.

Lemma testbit_255 (k : Z) : Z.testbit 255 k = (0 <=? k) && (k <? 8).
Proof.
  destruct (Z.leb_spec 0 k) as [Hk | Hk]; simpl.
  - change 255 with (Z.ones 8). apply Z.testbit_ones_nonneg; lia.
  - apply Z.testbit_neg_r. exact Hk.
Qed.

Lemma land_255_range (z : Z) : 0 <= Z.land z 255 <= 255.
Proof.
  change 255 with (Z.ones 8) at 1 2. rewrite Z.land_ones by lia.
  pose proof (Z.mod_pos_bound z (2 ^ 8)). lia.
Qed.

(** A byte holds the low eight bits it was made from. *)
Lemma Z_of_byte_of_Z (z : Z) : Z_of_byte (byte_of_Z z) = Z.land z 255.
Proof.
  unfold Z_of_byte, byte_of_Z.
  pose proof (land_255_range z) as Hr.
  destruct (Byte.of_N (Z.to_N (Z.land z 255))) as [b|] eqn:Hb.
  - apply Byte.to_of_N in Hb. rewrite Hb. apply Z2N.id. lia.
  - apply Byte.of_N_None_iff in Hb. lia.
Qed.

(** The bits of the byte taken at offset [k], put back at offset [k]. *)
Lemma field_bit (x k n : Z) :
  0 <= k ->
  Z.testbit (Z.shiftl (Z.land (Z.shiftr x k) 255) k) n
  = Z.testbit x n && ((k <=? n) && (n <? k + 8)).
Proof.
  intros Hk.
  destruct (Z.leb_spec k n) as [Hn | Hn]; simpl.
  - rewrite Z.shiftl_spec, Z.land_spec, Z.shiftr_spec, testbit_255 by lia.
    replace (n - k + k) with n by lia.
    destruct (Z.leb_spec 0 (n - k)); [|lia]. simpl.
    destruct (Z.ltb_spec (n - k) 8), (Z.ltb_spec n (k + 8));
      try lia; reflexivity.
  - rewrite andb_false_r.
    destruct (Z.ltb_spec n 0) as [Hneg | Hpos].
    + apply Z.testbit_neg_r. exact Hneg.
    + rewrite Z.shiftl_spec by lia. apply Z.testbit_neg_r. lia.
Qed.

Lemma word_high_bits (w n : Z) :
  0 <= w < 2 ^ 32 -> 32 <= n -> Z.testbit w n = false.
Proof.
  intros [H0 H32] Hn.
  destruct (Z.eq_dec w 0) as [-> | Hw]; [apply Z.testbit_0_l|].
  apply Z.bits_above_log2; [exact H0|].
  assert (Z.log2 w < 32) by (apply Z.log2_lt_pow2; lia). lia.
Qed.

(** Four bytes, least significant first, give the word back. *)
Lemma bytes_word_bytes (w : Z) :
  0 <= w < 2 ^ 32 ->
  bytes_word (byte_of_Z w) (byte_of_Z (Z.shiftr w 8))
    (byte_of_Z (Z.shiftr w 16)) (byte_of_Z (Z.shiftr w 24)) = w.
Proof.
  intros Hw. unfold bytes_word. rewrite !Z_of_byte_of_Z.
  rewrite <- (Z.shiftl_0_r (Z.land w 255)).
  rewrite <- (Z.shiftr_0_r w) at 1.
  apply Z.bits_inj'. intros n Hn.
  rewrite !Z.lor_spec, !field_bit by lia.
  destruct (Z.testbit w n) eqn:Hb; simpl; [|reflexivity].
  destruct (Z.ltb_spec n 32) as [Hlt | Hge].
  - destruct (Z.leb_spec 0 n), (Z.ltb_spec n (0 + 8)),
      (Z.leb_spec 8 n), (Z.ltb_spec n (8 + 8)),
      (Z.leb_spec 16 n), (Z.ltb_spec n (16 + 8)),
      (Z.leb_spec 24 n), (Z.ltb_spec n (24 + 8));
      simpl; try reflexivity; lia.
  - rewrite (word_high_bits w n Hw Hge) in Hb. discriminate.
Qed.

Lemma unpack_pack_words (ws : list Z) :
  Forall (fun w => 0 <= w < 2 ^ 32) ws -> unpack_words (pack_words ws) = ws.
Proof.
  induction 1 as [|w ws Hw _ IH]; simpl; [reflexivity|].
  fold (pack_words ws). rewrite IH, (bytes_word_bytes w Hw). reflexivity.
Qed.

(** Four bytes a word: no separator, no length prefix, no header. *)
Lemma length_pack_words (ws : list Z) :
  List.length (pack_words ws) = (4 * List.length ws)%nat.
Proof.
  induction ws as [|w ws IH]; simpl; [reflexivity|].
  fold (pack_words ws). rewrite IH. lia.
Qed.

Lemma decode_pack_words (ws : list Z) :
  Forall (fun w => 0 <= w < 2 ^ 32) ws ->
  decode_words (pack_words ws) = Ok ws.
Proof.
  intros Hws. unfold decode_words. rewrite length_pack_words.
  rewrite Nat2Z.inj_mul, Z.mul_comm, Z_mod_mult. simpl.
  rewrite (unpack_pack_words ws Hws). reflexivity.
Qed.

(** The elements are written one after the other, in input order. *)
Lemma encode_app (v w : list spec_float) :
  encode (v ++ w) = encode v ++ encode w.
Proof.
  unfold encode, pack_words. rewrite map_app. apply flat_map_app.
Qed.

(** The number of binary digits of a mantissa brackets it. *)
Lemma digits2_pos_bounds (m : positive) :
  2 ^ (Z.pos (digits2_pos m) - 1) <= Z.pos m < 2 ^ Z.pos (digits2_pos m).
Proof.
  induction m as [m IH | m IH |]; simpl digits2_pos.
  - rewrite Pos2Z.inj_succ.
    replace (Z.succ (Z.pos (digits2_pos m)) - 1) with
      (Z.succ (Z.pos (digits2_pos m) - 1)) by lia.
    rewrite !Z.pow_succ_r by lia. lia.
  - rewrite Pos2Z.inj_succ.
    replace (Z.succ (Z.pos (digits2_pos m)) - 1) with
      (Z.succ (Z.pos (digits2_pos m) - 1)) by lia.
    rewrite !Z.pow_succ_r by lia. lia.
  - simpl. lia.
Qed.

(** What validity says of a finite value of the format. *)
Lemma valid_finite (s : bool) (m : positive) (e : Z) :
  valid_binary prec emax (S754_finite s m e) = true ->
  (Z.pos m < 2 ^ 23 /\ e = -149)
  \/ (2 ^ 23 <= Z.pos m < 2 ^ 24 /\ -149 <= e <= 104).
Proof.
  unfold valid_binary, bounded, canonical_mantissa, fexp, emin, prec, emax.
  intros H. apply andb_true_iff in H. destruct H as [Hc He].
  apply Z.eqb_eq in Hc. apply Z.leb_le in He.
  pose proof (digits2_pos_bounds m) as [Hlo Hhi].
  set (d := Z.pos (digits2_pos m)) in *.
  assert (Hd : 0 < d) by (unfold d; lia).
  destruct (Z.le_gt_cases d 23) as [Hs | Hl].
  - left. split.
    + eapply Z.lt_le_trans; [exact Hhi|].
      apply Z.pow_le_mono_r; lia.
    + lia.
  - right.
    assert (d = 24) by lia.
    replace d with 24 in * by lia. simpl in Hlo. lia.
Qed.

(** The three fields of a word put together from them. *)
Lemma word_fields (s : bool) (exponent fraction : Z) :
  0 <= exponent < 256 ->
  0 <= fraction < 2 ^ 23 ->
  let w := sign_bit s + exponent * 2 ^ 23 + fraction in
  0 <= w < 2 ^ 32
  /\ Z.testbit w 31 = s
  /\ Z.land (Z.shiftr w 23) 255 = exponent
  /\ Z.land w (Z.ones 23) = fraction.
Proof.
  intros He Hf w.
  assert (Hs : sign_bit s = (if s then 1 else 0) * 2 ^ 31)
    by (destruct s; reflexivity).
  assert (Hw : 0 <= w < 2 ^ 32).
  { unfold w. rewrite Hs. destruct s; lia. }
  split; [exact Hw|]. split; [|split].
  - rewrite Z.testbit_odd, Z.shiftr_div_pow2 by lia.
    replace (w / 2 ^ 31) with (if s then 1 else 0); [destruct s; reflexivity|].
    apply Z.div_unique with (r := exponent * 2 ^ 23 + fraction);
      [left; lia | unfold w; rewrite Hs; lia].
  - change 255 with (Z.ones 8).
    rewrite Z.land_ones, Z.shiftr_div_pow2 by lia.
    replace (w / 2 ^ 23) with ((if s then 1 else 0) * 2 ^ 8 + exponent).
    + rewrite Z.add_comm, Z_mod_plus_full. apply Z.mod_small. lia.
    + apply Z.div_unique with (r := fraction);
        [left; lia | unfold w; rewrite Hs; lia].
  - rewrite Z.land_ones by lia.
    replace w with (fraction + ((if s then 1 else 0) * 2 ^ 8 + exponent) * 2 ^ 23)
      by (unfold w; rewrite Hs; lia).
    rewrite Z_mod_plus_full. apply Z.mod_small. lia.
Qed.

Lemma single_of_bits_of_single (x : spec_float) :
  finite_single x ->
  single_of_bits (bits_of_single x) = x /\ 0 <= bits_of_single x < 2 ^ 32.
Proof.
  intros [Hv Hfin]. destruct x as [s | s | | s m e]; try discriminate.
  - destruct s; split; try reflexivity; simpl; lia.
  - apply valid_finite in Hv. unfold bits_of_single.
    destruct Hv as [[Hm He] | [Hm He]].
    + destruct (Z.ltb_spec (Z.pos m) (2 ^ 23)) as [_ | Hge]; [|lia].
      destruct (word_fields s 0 (Z.pos m)) as (Hw & Hs & Hx & Hf); try lia.
      rewrite Z.mul_0_l, Z.add_0_r in *.
      split; [|exact Hw].
      unfold single_of_bits. rewrite Hs, Hx, Hf. simpl.
      subst e. reflexivity.
    + destruct (Z.ltb_spec (Z.pos m) (2 ^ 23)) as [Hlt | _]; [lia|].
      destruct (word_fields s (e + 150) (Z.pos m - 2 ^ 23))
        as (Hw & Hs & Hx & Hf); try lia.
      split; [|exact Hw].
      unfold single_of_bits. rewrite Hs, Hx, Hf.
      destruct (Z.eqb_spec (e + 150) 0) as [H0 | _]; [lia|].
      destruct (Z.eqb_spec (e + 150) 255) as [H255 | _]; [lia|].
      replace (2 ^ 23 + (Z.pos m - 2 ^ 23)) with (Z.pos m) by lia.
      replace (e + 150 - 150) with e by lia. reflexivity.
Qed.

(** C4: for every list [v] of finite single-precision values,
    [decode (encode v)] returns [v]; the blob is four bytes an element,
    with nothing before, between or after them. *)
Theorem decode_encode_roundtrip (v : list spec_float) :
  Forall finite_single v ->
  decode (encode v) = Ok v
  /\ List.length (encode v) = (4 * List.length v)%nat.
Proof.
  intros Hv. unfold decode, encode. split.
  - rewrite decode_pack_words.
    + f_equal. induction Hv as [|x v Hx _ IH]; simpl; [reflexivity|].
      rewrite IH, (proj1 (single_of_bits_of_single x Hx)). reflexivity.
    + apply Forall_map. revert Hv. apply Forall_impl.
      intros x Hx. apply single_of_bits_of_single. exact Hx.
  - rewrite length_pack_words, length_map. reflexivity.
Qed.

End CodecFacts.

(** The blob of [1.0, -2.5]: 00 00 80 3f, 00 00 20 c0. *)
Example encode_sample :
  Codec.encode [S754_finite false 8388608 (-23);
                S754_finite true 10485760 (-22)]
  = [x00; x00; x80; x3f; x00; x00; x20; xc0].
Proof.
  reflexivity.
Qed.

(** Witness of C4: 1.0, 0.0, -1.0 and the smallest positive value. *)
Lemma decode_encode_roundtrip_witness :
  Forall Codec.finite_single Sample.floats
  /\ Codec.decode (Codec.encode Sample.floats) = Ok Sample.floats.
Proof.
  assert (H : Forall Codec.finite_single Sample.floats).
  { repeat constructor. }
  split; [exact H|].
  exact (proj1 (decode_encode_roundtrip Sample.floats H)).
Defined.

(** ** Creating a collection *)

Section Creation.
Context `{L : Llm}.

Lemma filter_nil_not_exists {A : Type} (p : A -> bool) (l : list A) :
  filter p l = [] -> existsb p l = false.
Proof.
  induction l as [|a l IH]; simpl; [reflexivity|].
  destruct (p a); [discriminate|]. exact IH.
Qed.

Lemma stored_None (d : Database) (n : string) :
  stored d n = None -> filter (sqlite.named n) (collection_rows d) = [].
Proof.
  unfold stored, collection_rows. destruct (db_collections d) as [rs|];
    [|reflexivity].
  destruct (filter (sqlite.named n) rs); [reflexivity|discriminate].
Qed.

(** The creation path: the schema is made sure of, the model is resolved
    and kept, one row is appended and its rowid becomes the id. *)
Lemma id_created (s : State) (m : EmbeddingModel float) :
  _id (self s) = None ->
  stored (db s) (name (self s)) = None ->
  bound_model (_model (self s)) (_model_id (self s)) = Some m ->
  Collection.id s =
    ({| self :=
          {| name := name (self s);
             _model := Some m;
             _model_id := _model_id (self s);
             _id := Some (sqlite.next_rowid (collection_rows (db s))) |};
        db := created (db s) (name (self s)) (model_id m);
        calls := calls s ++ lookup_calls (db s)
                   ++ [call_insert "collections"] |},
     Ok (sqlite.next_rowid (collection_rows (db s)))).
Proof.
  destruct s as [[n mo mi i0] [dc de] tr]. simpl.
  intros -> Hst Hm. apply stored_None in Hst.
  unfold collection_rows in *. simpl in *.
  unfold Collection.id, Collection.model, created, new_row, ensured,
    lookup_calls, collection_rows.
  run_sqlite. run_setters. run_monad.
  destruct dc as [rs|]; simpl.
  - rewrite Hst. simpl.
    destruct mo as [m0|]; simpl in *.
    + injection Hm as ->.
      rewrite (filter_nil_not_exists _ _ Hst). simpl.
      rewrite <- !app_assoc. reflexivity.
    + rewrite Hm. simpl.
      rewrite (filter_nil_not_exists _ _ Hst). simpl.
      rewrite <- !app_assoc. reflexivity.
  - destruct mo as [m0|]; simpl in *.
    + injection Hm as ->. rewrite <- !app_assoc. reflexivity.
    + rewrite Hm. simpl. rewrite <- !app_assoc. reflexivity.
Qed.

(** Construction over a name that is not stored, with a model at hand. *)
Lemma new_created (d : Database) (tr : list db_call) (n : string)
    (mo : option (EmbeddingModel float)) (mi : option string)
    (m : EmbeddingModel float) :
  stored d n = None ->
  Collection.mismatch mo mi = false ->
  bound_model mo mi = Some m ->
  Collection.new d tr n mo mi =
    ({| self :=
          {| name := n;
             _model := Some m;
             _model_id := mi;
             _id := Some (sqlite.next_rowid (collection_rows d)) |};
        db := created d n (model_id m);
        calls := tr ++ lookup_calls d ++ [call_insert "collections"] |},
     Ok tt).
Proof.
  intros Hst Hmis Hm.
  unfold Collection.new, Collection.__init__.
  unfold bind at 1. unfold Collection.set_name at 1. run_monad.
  rewrite Hmis. run_setters. run_monad.
  erewrite id_created; simpl; eauto.
Qed.

(** Construction over a name that is not stored, without a model. *)
Lemma new_no_model (d : Database) (tr : list db_call) (n : string)
    (mo : option (EmbeddingModel float)) (mi : option string) :
  stored d n = None ->
  Collection.mismatch mo mi = false ->
  bound_model mo mi = None ->
  Collection.new d tr n mo mi =
    ({| self := {| name := n; _model := None; _model_id := mi; _id := None |};
        db := ensured d;
        calls := tr ++ lookup_calls d |},
     Raise (ValueError
              "No model_id specified and no model found with that name")).
Proof.
  intros Hst Hmis Hm.
  destruct mo as [m0|]; [discriminate|]. simpl in Hm.
  unfold Collection.new, Collection.__init__.
  unfold bind at 1. unfold Collection.set_name at 1. run_monad.
  run_setters. run_monad.
  rewrite id_no_model; simpl; auto.
Qed.

(** The two ways a construction succeeds. *)
Lemma new_cases (d : Database) (tr : list db_call) (n : string)
    (mo : option (EmbeddingModel float)) (mi : option string) (s : State) :
  Collection.new d tr n mo mi = (s, Ok tt) ->
  (exists row,
     stored d n = Some row /\ db s = d
     /\ self s = {| name := n; _model := mo;
                    _model_id :=
                      Some (match mi with
                            | Some i => i
                            | None => collections.model row
                            end);
                    _id := Some (collections.id row) |})
  \/ (exists m,
        stored d n = None /\ bound_model mo mi = Some m
        /\ db s = created d n (model_id m)
        /\ self s = {| name := n; _model := Some m; _model_id := mi;
                       _id := Some (sqlite.next_rowid (collection_rows d)) |}).
Proof.
  destruct (Collection.mismatch mo mi) eqn:Hmis.
  - rewrite new_mismatch by exact Hmis. discriminate.
  - destruct (stored d n) as [row|] eqn:Hst.
    + rewrite (new_found d tr n mo mi row Hst Hmis).
      intros [= <-]. left. exists row. auto.
    + destruct (bound_model mo mi) as [m|] eqn:Hb.
      * rewrite (new_created d tr n mo mi m Hst Hmis Hb).
        intros [= <-]. right. exists m. auto.
      * rewrite (new_no_model d tr n mo mi Hst Hmis Hb). discriminate.
Qed.

Lemma stored_created (d : Database) (n mid : string) :
  stored d n = None -> stored (created d n mid) n = Some (new_row d n mid).
Proof.
  intros Hst. apply stored_None in Hst.
  unfold stored, created. simpl.
  rewrite filter_app, Hst. simpl.
  unfold sqlite.named. simpl. rewrite String.eqb_refl. reflexivity.
Qed.

End Creation.

Section CreationFacts.
Context `{L : Llm}.

Lemma fold_max_above (a : Z) (l : list collections.row) :
  a <= fold_right (fun x m => Z.max (collections.id x) m) a l
  /\ forall r, In r l ->
       collections.id r
       <= fold_right (fun x m => Z.max (collections.id x) m) a l.
Proof.
  induction l as [|x l [IHa IHl]]; simpl.
  - split; [lia | intros r []].
  - split; [lia|]. intros r [-> | Hr]; [lia|].
    specialize (IHl r Hr). lia.
Qed.

(** The rowid of a new row is above every id in the table. *)
Lemma next_rowid_above (rs : list collections.row) (r : collections.row) :
  In r rs -> collections.id r < sqlite.next_rowid rs.
Proof.
  destruct rs as [|r0 rs]; [intros []|].
  unfold sqlite.next_rowid.
  destruct (fold_max_above (collections.id r0) rs) as [Ha Hl].
  intros [<- | Hr]; [lia|]. specialize (Hl r Hr). lia.
Qed.

Lemma collection_rows_ensured (d : Database) :
  collection_rows (ensured d) = collection_rows d.
Proof.
  unfold collection_rows, ensured.
  destruct (db_collections d) eqn:Hd; simpl; [rewrite Hd|]; reflexivity.
Qed.


Lemma not_named (n : string) (rs : list collections.row) :
  filter (sqlite.named n) rs = [] -> ~ In n (map collections.name rs).
Proof.
  induction rs as [|r rs IH]; simpl; [tauto|].
  unfold sqlite.named at 1.
  destruct (String.eqb_spec (collections.name r) n) as [_ | Hne];
    [discriminate|].
  intros Hf [Heq | Hin]; [congruence|]. apply (IH Hf Hin).
Qed.

Lemma NoDup_snoc {A : Type} (l : list A) (x : A) :
  NoDup l -> ~ In x l -> NoDup (l ++ [x]).
Proof.
  intros Hl Hx. apply Permutation_NoDup with (l := x :: l).
  - apply Permutation_cons_append.
  - constructor; assumption.
Qed.


(** X2: after a successful construction the database stores a row under
    the handle's name, and the handle's id is that row's id. *)
Theorem new_agrees_with_store (d : Database) (tr : list db_call)
    (n : string) (mo : option (EmbeddingModel float)) (mi : option string)
    (s : State) :
  Collection.new d tr n mo mi = (s, Ok tt) ->
  name (self s) = n
  /\ exists row,
       stored (db s) n = Some row
       /\ collections.name row = n
       /\ _id (self s) = Some (collections.id row).
Proof.
  intros Hnew. apply new_cases in Hnew.
  destruct Hnew as [(row & Hst & Hdb & Hself)
                   | (m & Hst & Hb & Hdb & Hself)];
    rewrite Hself, Hdb; simpl; (split; [reflexivity|]).
  - exists row. repeat split; [exact Hst|].
    unfold stored in Hst. destruct (db_collections d) as [rs|]; [|discriminate].
    destruct (filter (sqlite.named n) rs) as [|r0 rest] eqn:Hf;
      [discriminate|].
    injection Hst as ->.
    assert (Hin : In row (filter (sqlite.named n) rs))
      by (rewrite Hf; left; reflexivity).
    apply filter_In in Hin. destruct Hin as [_ Hn].
    apply String.eqb_eq. exact Hn.
  - exists (new_row d n (model_id m)).
    rewrite (stored_created d n (model_id m) Hst). auto.
Qed.

(** X3: constructing a second handle for the name of a successfully
    constructed one, with any model and model_id that pass the consistency
    check, succeeds, writes nothing and yields the same id: the name is
    created once. *)
Theorem new_twice_same_id (d : Database) (tr : list db_call) (n : string)
    (mo1 mo2 : option (EmbeddingModel float)) (mi1 mi2 : option string)
    (s1 : State) :
  Collection.new d tr n mo1 mi1 = (s1, Ok tt) ->
  Collection.mismatch mo2 mi2 = false ->
  exists s2,
    Collection.new (db s1) (calls s1) n mo2 mi2 = (s2, Ok tt)
    /\ db s2 = db s1
    /\ _id (self s2) = _id (self s1).
Proof.
  intros Hnew Hmis. apply new_cases in Hnew.
  destruct Hnew as [(row & Hst & Hdb & Hself)
                   | (m & Hst & Hb & Hdb & Hself)].
  - rewrite Hdb, Hself.
    rewrite (new_found d (calls s1) n mo2 mi2 row Hst Hmis).
    eexists. repeat split.
  - pose proof (stored_created d n (model_id m) Hst) as Hst'.
    rewrite Hdb, Hself.
    rewrite (new_found _ (calls s1) n mo2 mi2 _ Hst' Hmis).
    eexists. repeat split.
Qed.

(** X4: whatever its arguments and whether it returns or raises, a
    construction keeps the names and the ids of [collections] free of
    duplicates. *)
Theorem new_keeps_collections_unique (d : Database) (tr : list db_call)
    (n : string) (mo : option (EmbeddingModel float)) (mi : option string) :
  names_unique d ->
  ids_unique d ->
  names_unique (db (fst (Collection.new d tr n mo mi)))
  /\ ids_unique (db (fst (Collection.new d tr n mo mi))).
Proof.
  unfold names_unique, ids_unique. intros Hn Hi.
  destruct (Collection.mismatch mo mi) eqn:Hmis.
  - rewrite new_mismatch by exact Hmis. simpl. auto.
  - destruct (stored d n) as [row|] eqn:Hst.
    + rewrite (new_found d tr n mo mi row Hst Hmis). simpl. auto.
    + destruct (bound_model mo mi) as [m|] eqn:Hb.
      * rewrite (new_created d tr n mo mi m Hst Hmis Hb). simpl.
        unfold created, collection_rows at 1 3. simpl.
        rewrite !map_app. simpl. split; apply NoDup_snoc; auto.
        -- apply not_named, stored_None, Hst.
        -- intros Hin. apply in_map_iff in Hin.
           destruct Hin as (r & Hr & Hin).
           apply next_rowid_above in Hin. lia.
      * rewrite (new_no_model d tr n mo mi Hst Hmis Hb). simpl.
        rewrite collection_rows_ensured. auto.
Qed.

(** X5: a model instance passed with a non-empty model_id other than its
    own makes the constructor raise its mismatch [ValueError] before any
    call on the database: database and trace of calls are as before. *)
Theorem new_rejects_mismatch (d : Database) (tr : list db_call) (n : string)
    (m : EmbeddingModel float) (i : string) :
  i <> EmptyString ->
  model_id m <> i ->
  snd (Collection.new d tr n (Some m) (Some i))
  = Raise (ValueError "model_id does not match model.model_id")
  /\ db (fst (Collection.new d tr n (Some m) (Some i))) = d
  /\ calls (fst (Collection.new d tr n (Some m) (Some i))) = tr.
Proof.
  intros Hi Hm.
  assert (Hmis : Collection.mismatch (Some m) (Some i) = true).
  { apply mismatch_true. exists m, i. auto. }
  rewrite (new_mismatch d tr n (Some m) (Some i) Hmis). simpl. auto.
Qed.

End CreationFacts.

(** ** Reading without writing *)

Section Reading.
Context `{L : Llm}.

(** X6: [exists()] only reads: in every state it leaves the database and
    the handle as they were.  It raises OperationalError when the table
    [collections] is missing (it does not create the schema), and
    otherwise returns whether a row is stored under the handle's name. *)
Theorem exists_reports_stored (s : State) :
  db (fst (Collection.exists_ s)) = db s
  /\ self (fst (Collection.exists_ s)) = self s
  /\ (db_collections (db s) = None ->
      snd (Collection.exists_ s)
      = Raise (OperationalError "no such table: collections"))
  /\ (db_collections (db s) <> None ->
      snd (Collection.exists_ s)
      = Ok (match stored (db s) (name (self s)) with
            | Some _ => true
            | None => false
            end)).
Proof.
  unfold Collection.exists_, sqlite.query_select_1, stored. run_monad.
  destruct (db_collections (db s)) as [rs|]; simpl.
  - repeat split; try discriminate. intros _.
    destruct (filter (sqlite.named (name (self s))) rs); reflexivity.
  - repeat split. intros H. congruence.
Qed.

(** X7: on the state a successful construction leaves, [exists()] returns
    True. *)
Theorem exists_after_new (d : Database) (tr : list db_call) (n : string)
    (mo : option (EmbeddingModel float)) (mi : option string) (s : State) :
  Collection.new d tr n mo mi = (s, Ok tt) ->
  snd (Collection.exists_ s) = Ok true.
Proof.
  intros Hnew. apply new_cases in Hnew.
  assert (Hst : name (self s) = n /\ exists row, stored (db s) n = Some row).
  { destruct Hnew as [(row & Hst & Hdb & Hself)
                     | (m & Hst & Hb & Hdb & Hself)];
      rewrite Hself, Hdb; simpl; (split; [reflexivity|]).
    - exists row. exact Hst.
    - exists (new_row d n (model_id m)). apply stored_created, Hst. }
  destruct Hst as [Hname [row Hst]].
  unfold Collection.exists_, sqlite.query_select_1. run_monad.
  rewrite Hname. unfold stored in Hst.
  destruct (db_collections (db s)) as [rs|]; [|discriminate]. simpl.
  destruct (filter (sqlite.named n) rs); [discriminate|reflexivity].
Qed.

(** X8: [count()] only reads as well: database and handle are unchanged in
    every state, and when one of the two tables is missing it raises
    OperationalError instead of creating the schema. *)
Theorem count_only_reads (s : State) :
  db (fst (Collection.count s)) = db s
  /\ self (fst (Collection.count s)) = self s
  /\ (db_collections (db s) = None \/ db_embeddings (db s) = None ->
      exists msg, snd (Collection.count s) = Raise (OperationalError msg)).
Proof.
  unfold Collection.count, sqlite.query_count. run_monad.
  destruct (db_embeddings (db s)) as [t|],
    (db_collections (db s)) as [rs|]; simpl; repeat split;
    intros [H | H]; try discriminate; eauto.
Qed.

(** What [model()] does when a model is at hand. *)
Lemma model_run (s : State) (m : EmbeddingModel float) :
  bound_model (_model (self s)) (_model_id (self s)) = Some m ->
  exists s',
    Collection.model s = (s', Ok m)
    /\ db s' = db s /\ calls s' = calls s
    /\ name (self s') = name (self s)
    /\ _model (self s') = Some m
    /\ _model_id (self s') = _model_id (self s)
    /\ _id (self s') = _id (self s).
Proof.
  destruct s as [[n mo mi i] d tr]. simpl.
  unfold Collection.model. run_setters. run_monad.
  destruct mo as [m0|]; simpl.
  - intros [= ->]. eexists. split; [reflexivity|]. simpl. auto 10.
  - intros ->. eexists. split; [reflexivity|]. simpl. auto 10.
Qed.

(** X9: [model()] never calls the database and changes nothing of the
    handle but [_model]; once it has returned a model, every later call on
    the handle returns that model and leaves the state as it is, whatever
    the database. *)
Theorem model_is_cached (s s1 : State) (r : result (EmbeddingModel float)) :
  Collection.model s = (s1, r) ->
  db s1 = db s /\ calls s1 = calls s
  /\ name (self s1) = name (self s)
  /\ _id (self s1) = _id (self s)
  /\ _model_id (self s1) = _model_id (self s)
  /\ forall m, r = Ok m ->
       forall (d : Database) (tr : list db_call),
         Collection.model {| self := self s1; db := d; calls := tr |}
         = ({| self := self s1; db := d; calls := tr |}, Ok m).
Proof.
  destruct s as [[n mo mi i] d0 tr0].
  unfold Collection.model at 1. run_setters. run_monad.
  destruct mo as [m0|]; simpl.
  - intros E. inversion E. subst. simpl. repeat split.
    intros m [= ->] d tr. reflexivity.
  - destruct (get_embedding_model mi) as [m0|]; simpl;
      intros E; inversion E; subst; simpl; repeat split.
    + intros m [= ->] d tr. reflexivity.
    + discriminate.
Qed.

End Reading.

(** ** Storing records *)

Section Storing.
Context `{L : Llm}.

(** [embed] on a resolved handle with a model at hand is the insert of the
    record, on a state that differs from the first by the cached model
    only. *)
Lemma embed_resolved (s : State) (cid : Z) (m : EmbeddingModel float)
    (id' text : string) (metadata : option (list (string * json)))
    (store : bool) :
  _id (self s) = Some cid ->
  bound_model (_model (self s)) (_model_id (self s)) = Some m ->
  exists s',
    Collection.embed id' text metadata store s
    = sqlite.embeddings_insert (record cid m id' text metadata store) s'
    /\ db s' = db s /\ calls s' = calls s
    /\ name (self s') = name (self s)
    /\ _id (self s') = Some cid.
Proof.
  intros Hid Hb. rewrite embed_run.
  destruct (model_run s m Hb) as (s' & Hm & Hdb & Hc & Hn & _ & _ & Hi).
  rewrite Hm. rewrite (id_cached s' cid) by congruence.
  exists s'. rewrite Hi. auto.
Qed.

Lemma not_keyed_as (cid : Z) (i : string) (rs : list embeddings.row) :
  existsb (sqlite.keyed_as cid i) rs = false -> ~ In (cid, i) (map key rs).
Proof.
  induction rs as [|r rs IH]; simpl; [tauto|].
  intros H. apply orb_false_iff in H. destruct H as [Hr Hrs].
  intros [Heq | Hin]; [|exact (IH Hrs Hin)].
  unfold key in Heq. injection Heq as Hc Hi.
  unfold sqlite.keyed_as in Hr. rewrite Hc, Hi in Hr.
  rewrite Z.eqb_refl, String.eqb_refl in Hr. discriminate.
Qed.

(** X10: on a resolved handle with a model at hand, when the key
    (collection id, id) is free in a keyed table, [embed] returns and
    appends exactly the record of the text to [embeddings], after the rows
    that were there: the encoded embedding of the text by the model, the
    text only if [store] is set, the dumped metadata only if it is
    non-empty.  The table [collections] is untouched and the record is then
    found under its key. *)
Theorem embed_appends_record (s : State) (cid : Z)
    (m : EmbeddingModel float) (id' text : string)
    (metadata : option (list (string * json))) (store : bool) :
  _id (self s) = Some cid ->
  bound_model (_model (self s)) (_model_id (self s)) = Some m ->
  (forall t, db_embeddings (db s) = Some t -> keyed t = true ->
             existsb (sqlite.keyed_as cid id') (rows t) = false) ->
  let r := record cid m id' text metadata store in
  let s1 := fst (Collection.embed id' text metadata store s) in
  snd (Collection.embed id' text metadata store s) = Ok tt
  /\ embedding_rows (db s1) = embedding_rows (db s) ++ [r]
  /\ db_collections (db s1) = db_collections (db s)
  /\ In r (filter (sqlite.keyed_as cid id') (embedding_rows (db s1)))
  /\ embeddings.content r = (if store then Some text else None)
  /\ embeddings.embedding r = encode (embed_text m text).
Proof.
  intros Hid Hb Hfree r s1. subst s1.
  destruct (embed_resolved s cid m id' text metadata store Hid Hb)
    as (s' & -> & Hdb & _ & _ & _).
  assert (Hr : sqlite.keyed_as cid id' r = true).
  { unfold sqlite.keyed_as, r. simpl.
    rewrite Z.eqb_refl, String.eqb_refl. reflexivity. }
  unfold sqlite.embeddings_insert, embedding_rows. run_monad.
  rewrite Hdb.
  destruct (db_embeddings (db s)) as [t|] eqn:Ht; simpl.
  - fold r.
    destruct (keyed t) eqn:Hk; simpl.
    + rewrite (Hfree t eq_refl Hk). simpl. repeat split.
      apply filter_In. split; [apply in_or_app; right; left; reflexivity|].
      exact Hr.
    + repeat split.
      apply filter_In. split; [apply in_or_app; right; left; reflexivity|].
      exact Hr.
  - fold r. rewrite Hr. repeat split. left. reflexivity.
Qed.


(** X12: on a handle whose id is the id of the row stored under its name,
    a successful [embed] raises [count()] by exactly one. *)
Theorem count_after_embed (s s1 : State) (row : collections.row) (k : Z)
    (id' text : string) (metadata : option (list (string * json)))
    (store : bool) :
  stored (db s) (name (self s)) = Some row ->
  _id (self s) = Some (collections.id row) ->
  snd (Collection.count s) = Ok k ->
  Collection.embed id' text metadata store s = (s1, Ok tt) ->
  snd (Collection.count s1) = Ok (k + 1).
Proof.
  intros Hst Hid Hk.
  destruct (bound_model (_model (self s)) (_model_id (self s))) as [m|] eqn:Hb.
  - destruct (embed_resolved s _ m id' text metadata store Hid Hb)
      as (s' & -> & Hdb & _ & Hn & _).
    unfold stored in Hst.
    destruct (db_collections (db s)) as [rs|] eqn:Hc; [|discriminate].
    assert (Hsel : sqlite.select_id (name (self s)) rs
                   = Some (collections.id row)).
    { unfold sqlite.select_id.
      destruct (filter (sqlite.named (name (self s))) rs);
        simpl in Hst; [discriminate|]. injection Hst as ->. reflexivity. }
    revert Hk. unfold Collection.count, sqlite.query_count,
      sqlite.embeddings_insert. run_monad.
    rewrite Hdb, Hc.
    destruct (db_embeddings (db s)) as [t|]; simpl; [|discriminate].
    rewrite Hsel. intros [= <-].
    destruct (keyed t && existsb _ (rows t)); [discriminate|].
    intros E. inversion E. subst. simpl. rewrite Hn, Hsel.
    rewrite filter_app, length_app. simpl.
    rewrite Z.eqb_refl. simpl. f_equal. lia.
  - rewrite embed_run. unfold Collection.model. run_monad.
    unfold bound_model in Hb.
    destruct (_model (self s)); [discriminate|]. rewrite Hb. discriminate.
Qed.

(** X13: on a resolved handle over a keyed table whose keys (collection
    id, id) are free of duplicates, they still are after [embed], whether
    it returns or raises. *)
Theorem embed_keeps_keys_unique (s : State) (cid : Z) (t : embeddings_table)
    (id' text : string) (metadata : option (list (string * json)))
    (store : bool) :
  _id (self s) = Some cid ->
  db_embeddings (db s) = Some t ->
  keyed t = true ->
  NoDup (map key (rows t)) ->
  NoDup (map key
           (embedding_rows
              (db (fst (Collection.embed id' text metadata store s))))).
Proof.
  intros Hid Ht Hk Hnd.
  destruct (bound_model (_model (self s)) (_model_id (self s))) as [m|] eqn:Hb.
  - destruct (embed_resolved s cid m id' text metadata store Hid Hb)
      as (s' & -> & Hdb & _ & _ & _).
    unfold sqlite.embeddings_insert, embedding_rows. run_monad.
    rewrite Hdb, Ht, Hk. simpl.
    destruct (existsb (sqlite.keyed_as cid id') (rows t)) eqn:Hex; simpl.
    + rewrite Ht. exact Hnd.
    + rewrite map_app. simpl. apply NoDup_snoc; [exact Hnd|].
      apply not_keyed_as. exact Hex.
  - rewrite embed_run. unfold Collection.model, embedding_rows. run_monad.
    unfold bound_model in Hb.
    destruct (_model (self s)); [discriminate|]. rewrite Hb. simpl.
    rewrite Ht. exact Hnd.
Qed.

(** X14: on a handle without a model instance whose model_id the registry
    does not resolve, [embed] and [similar] raise the "no model"
    [ValueError] before any call on the database: the whole state is as
    before. *)
Theorem no_model_no_database_call (s : State) (id' text : string)
    (metadata : option (list (string * json))) (store : bool) (number : Z) :
  _model (self s) = None ->
  get_embedding_model (_model_id (self s)) = None ->
  Collection.embed id' text metadata store s
  = (s, Raise (ValueError
                 "No model_id specified and no model found with that name"))
  /\ Collection.similar text number s
     = (s, Raise (ValueError
                    "No model_id specified and no model found with that name")).
Proof.
  intros Hm Hreg.
  unfold Collection.embed, Collection.similar, Collection.model. run_monad.
  rewrite Hm, Hreg. split; reflexivity.
Qed.

End Storing.

(** ** Searching *)

Section Searching.
Context `{L : Llm}.

(** On a resolved handle over an existing table the outcome of
    [similar_by_vector] depends on the handle's id, the rows and the
    arguments only. *)
Lemma similar_by_vector_resolved (s : State) (cid : Z)
    (t : embeddings_table) (vector : list float) (number : Z)
    (skip_id : option string) :
  _id (self s) = Some cid ->
  db_embeddings (db s) = Some t ->
  snd (Collection.similar_by_vector vector number skip_id s)
  = if (number <? sqlite.min_int64) || (sqlite.max_int64 <? number)
    then Raise (IntegrityError "datatype mismatch")
    else ranked vector (where_bits_of cid skip_id) number (rows t).
Proof.
  intros Hid Ht.
  unfold Collection.similar_by_vector, sqlite.register_function.
  run_monad.
  rewrite (id_cached _ cid) by exact Hid.
  unfold sqlite.query_similar. run_monad. rewrite Ht.
  destruct ((number <? sqlite.min_int64) || (sqlite.max_int64 <? number));
    [reflexivity|].
  unfold ranked, where_bits_of.
  destruct (sqlite.select_scores _ _); reflexivity.
Qed.

Lemma select_scores_sound (f : bytes -> result float)
    (rs : list embeddings.row) (l : list (string * float))
    (i : string) (sc : float) :
  sqlite.select_scores f rs = Ok l ->
  In (i, sc) l ->
  exists r, In r rs /\ embeddings.id r = i
            /\ f (embeddings.embedding r) = Ok sc.
Proof.
  revert l. induction rs as [|r rs IH]; simpl; intros l.
  - intros [= <-] [].
  - destruct (f (embeddings.embedding r)) as [sc0|e] eqn:Hf; [|discriminate].
    destruct (sqlite.select_scores f rs) as [l'|e]; [|discriminate].
    intros [= <-] [Heq | Hin].
    + injection Heq as <- <-. exists r. auto.
    + destruct (IH l' eq_refl Hin) as (r' & Hr' & Hi & Hs).
      exists r'. auto.
Qed.

Lemma select_scores_complete (f : bytes -> result float)
    (rs : list embeddings.row) (l : list (string * float))
    (r : embeddings.row) (sc : float) :
  sqlite.select_scores f rs = Ok l ->
  In r rs ->
  f (embeddings.embedding r) = Ok sc ->
  In (embeddings.id r, sc) l.
Proof.
  revert l. induction rs as [|r0 rs IH]; simpl; intros l; [intros _ []|].
  destruct (f (embeddings.embedding r0)) as [sc0|e] eqn:Hf; [|discriminate].
  destruct (sqlite.select_scores f rs) as [l'|e]; [|discriminate].
  intros [= <-] [-> | Hin] Hsc.
  - left. congruence.
  - right. apply (IH l' eq_refl Hin Hsc).
Qed.

(** What the conditions of the query select. *)
Lemma where_holds_spec (cid : Z) (skip_id : option string)
    (r : embeddings.row) :
  sqlite.where_holds (where_bits_of cid skip_id) r = true <->
  embeddings.collection_id r = cid
  /\ (forall x, skip_id = Some x -> x <> EmptyString -> embeddings.id r <> x).
Proof.
  unfold sqlite.where_holds, where_bits_of, truthy. simpl.
  rewrite andb_true_iff, Z.eqb_eq.
  destruct skip_id as [x|]; simpl.
  - destruct (String.eqb_spec x EmptyString) as [-> | Hx]; simpl.
    + intuition congruence.
    + rewrite andb_true_r, negb_true_iff, String.eqb_neq.
      split.
      * intros [Hc Hne]. split; [exact Hc|]. intros y [= <-] _. exact Hne.
      * intros [Hc Hne]. split; [exact Hc|]. apply Hne; auto.
  - intuition congruence.
Qed.

Lemma insert_desc_perm (x : string * float) (l : list (string * float)) :
  Permutation (x :: l) (sqlite.insert_desc x l).
Proof.
  induction l as [|y l IH]; simpl; [reflexivity|].
  destruct (score_leb (snd y) (snd x)); [reflexivity|].
  rewrite perm_swap. constructor. exact IH.
Qed.

Lemma order_by_perm (l : list (string * float)) :
  Permutation l (sqlite.order_by_score_desc l).
Proof.
  induction l as [|x l IH]; simpl; [constructor|].
  rewrite <- insert_desc_perm. constructor. exact IH.
Qed.

Lemma sorted_app_cross {A : Type} (R : A -> A -> Prop) (l1 l2 : list A) :
  StronglySorted R (l1 ++ l2) ->
  forall x y, In x l1 -> In y l2 -> R x y.
Proof.
  induction l1 as [|a l1 IH]; simpl; intros Hs x y; [intros []|].
  apply StronglySorted_inv in Hs. destruct Hs as [Hs Ha].
  intros [<- | Hx] Hy.
  - rewrite Forall_forall in Ha. apply Ha. apply in_or_app. auto.
  - apply (IH Hs x y Hx Hy).
Qed.

(** What [limit] leaves out comes after what it keeps. *)
Lemma limit_split {A : Type} (n : Z) (l : list A) :
  exists rest, l = sqlite.limit n l ++ rest /\ (n < 0 -> rest = []).
Proof.
  unfold sqlite.limit. destruct (Z.ltb_spec n 0) as [Hn | Hn].
  - exists []. rewrite app_nil_r. auto.
  - exists (skipn (Z.to_nat n) l). rewrite firstn_skipn. split; [reflexivity|].
    lia.
Qed.

(** X15: [similar_by_id] for an id under which the collection holds no
    record raises [ValueError("ID not found")] after the one lookup: the
    database is unchanged, no function is registered and no similarity
    query is run. *)
Theorem similar_by_id_not_found (s : State) (cid : Z) (id' : string)
    (number : Z) :
  _id (self s) = Some cid ->
  filter (sqlite.keyed_as cid id') (embedding_rows (db s)) = [] ->
  Collection.similar_by_id id' number s
  = ({| self := self s; db := db s;
        calls := calls s ++ [call_rows_where "embeddings"] |},
     Raise (ValueError "ID not found")).
Proof.
  intros Hid Hnone.
  unfold Collection.similar_by_id. unfold bind at 1.
  rewrite (id_cached s cid Hid).
  unfold sqlite.embeddings_rows_where, embedding_rows in *. run_monad.
  destruct (db_embeddings (db s)) as [t|]; [rewrite Hnone|]; reflexivity.
Qed.

(** X16: every pair [similar_by_vector] returns on a resolved handle is
    the id of a record of the handle's collection together with the score
    of that record's stored vector against the query vector; a non-empty
    [skip_id] is never among the ids.  Records of other collections are
    never returned. *)
Theorem similar_by_vector_sound (s : State) (cid : Z) (t : embeddings_table)
    (vector : list float) (number : Z) (skip_id : option string)
    (l : list (string * float)) :
  _id (self s) = Some cid ->
  db_embeddings (db s) = Some t ->
  snd (Collection.similar_by_vector vector number skip_id s) = Ok l ->
  forall i sc, In (i, sc) l ->
    (exists r, In r (rows t)
               /\ embeddings.collection_id r = cid
               /\ embeddings.id r = i
               /\ Collection.distance_score vector (embeddings.embedding r)
                  = Ok sc)
    /\ (forall x, skip_id = Some x -> x <> EmptyString -> i <> x).
Proof.
  intros Hid Ht.
  rewrite (similar_by_vector_resolved s cid t vector number skip_id Hid Ht).
  destruct ((number <? sqlite.min_int64) || (sqlite.max_int64 <? number));
    [discriminate|].
  unfold ranked.
  destruct (sqlite.select_scores _ _) as [scored|e] eqn:Hs; [|discriminate].
  intros [= <-] i sc Hin.
  apply limit_In in Hin. apply (proj1 (order_by_In _ _)) in Hin.
  destruct (select_scores_sound _ _ _ _ _ Hs Hin) as (r & Hr & Hi & Hsc).
  apply filter_In in Hr. destruct Hr as [Hr Hw].
  apply where_holds_spec in Hw. destruct Hw as [Hc Hskip].
  split.
  - exists r. auto.
  - intros x Hx Hne. rewrite <- Hi. apply (Hskip x Hx Hne).
Qed.

(** X17: what [similar_by_vector] returns is the best of the collection:
    a record of the collection that is not skipped is either returned with
    its score, or scores no higher than every returned pair; and with a
    negative [number] every such record is returned. *)
Theorem similar_by_vector_best (s : State) (cid : Z) (t : embeddings_table)
    (vector : list float) (number : Z) (skip_id : option string)
    (l : list (string * float)) :
  _id (self s) = Some cid ->
  db_embeddings (db s) = Some t ->
  (forall a b : float, score_leb a b = true \/ score_leb b a = true) ->
  (forall a b c : float,
     score_leb a b = true -> score_leb b c = true -> score_leb a c = true) ->
  snd (Collection.similar_by_vector vector number skip_id s) = Ok l ->
  forall r sc,
    In r (rows t) ->
    embeddings.collection_id r = cid ->
    (forall x, skip_id = Some x -> x <> EmptyString ->
               embeddings.id r <> x) ->
    Collection.distance_score vector (embeddings.embedding r) = Ok sc ->
    (In (embeddings.id r, sc) l
     \/ forall p, In p l -> score_leb sc (snd p) = true)
    /\ (number < 0 -> In (embeddings.id r, sc) l).
Proof.
  intros Hid Ht total trans.
  rewrite (similar_by_vector_resolved s cid t vector number skip_id Hid Ht).
  destruct ((number <? sqlite.min_int64) || (sqlite.max_int64 <? number));
    [discriminate|].
  unfold ranked.
  destruct (sqlite.select_scores _ _) as [scored|e] eqn:Hs; [|discriminate].
  intros [= <-] r sc Hr Hc Hskip Hsc.
  assert (Hin : In (embeddings.id r, sc) (sqlite.order_by_score_desc scored)).
  { apply order_by_In. apply (select_scores_complete _ _ _ r sc Hs); [|exact Hsc].
    apply filter_In. split; [exact Hr|]. apply where_holds_spec. auto. }
  destruct (limit_split number (sqlite.order_by_score_desc scored))
    as (rest & Hsplit & Hall).
  pose proof (order_by_sorted total trans scored) as Hsorted.
  rewrite Hsplit in Hin, Hsorted.
  apply in_app_or in Hin. split.
  - destruct Hin as [Hin | Hin]; [left; exact Hin|]. right.
    intros p Hp.
    apply (sorted_app_cross desc _ _ Hsorted p (embeddings.id r, sc) Hp Hin).
  - intros Hneg. rewrite (Hall Hneg) in Hin.
    destruct Hin as [Hin | []]. exact Hin.
Qed.

(** X18: for a non-empty id under which the collection holds a record
    with a decodable vector, [0 <= number] within the 64-bit integers and
    a scoring function that succeeds on the other records of the
    collection, [similar_by_id] returns at most [number] pairs, none of
    them with that id, all of them with ids of records of the collection;
    the record's own vector is not scored. *)
Theorem similar_by_id_ranked (s : State) (cid : Z) (t : embeddings_table)
    (id' : string) (number : Z) (m0 : embeddings.row)
    (rest : list embeddings.row) (v : list float) :
  _id (self s) = Some cid ->
  db_embeddings (db s) = Some t ->
  id' <> EmptyString ->
  filter (sqlite.keyed_as cid id') (rows t) = m0 :: rest ->
  decode (embeddings.embedding m0) = Ok v ->
  0 <= number <= sqlite.max_int64 ->
  (forall r, In r (rows t) -> embeddings.collection_id r = cid ->
             embeddings.id r <> id' ->
             exists sc,
               Collection.distance_score v (embeddings.embedding r) = Ok sc) ->
  exists l,
    snd (Collection.similar_by_id id' number s) = Ok l
    /\ Z.of_nat (List.length l) <= number
    /\ ~ In id' (map fst l)
    /\ forall i, In i (map fst l) ->
         exists r, In r (rows t) /\ embeddings.collection_id r = cid
                   /\ embeddings.id r = i.
Proof.
  intros Hid Ht Hne Hm0 Hv Hn Hscore.
  assert (Htruthy : truthy id' = true).
  { unfold truthy. apply negb_true_iff, String.eqb_neq. exact Hne. }
  unfold Collection.similar_by_id. unfold bind at 1.
  rewrite (id_cached s cid Hid).
  unfold sqlite.embeddings_rows_where. run_monad. rewrite Ht, Hm0, Hv.
  rewrite similar_by_vector_resolved with (cid := cid) (t := t);
    [| exact Hid | exact Ht].
  destruct ((number <? sqlite.min_int64) || (sqlite.max_int64 <? number))
    eqn:Hr.
  { apply orb_true_iff in Hr. rewrite !Z.ltb_lt in Hr.
    unfold sqlite.min_int64, sqlite.max_int64 in *. lia. }
  destruct (select_scores_total (Collection.distance_score v)
              (filter (sqlite.where_holds (where_bits_of cid (Some id')))
                 (rows t))) as [scored Hs].
  { intros r Hin. apply filter_In in Hin. destruct Hin as [Hin Hw].
    apply where_holds_spec in Hw. destruct Hw as [Hc Hskip].
    apply (Hscore r Hin Hc). apply (Hskip id' eq_refl Hne). }
  assert (Hranked : ranked v (where_bits_of cid (Some id')) number (rows t)
                    = Ok (sqlite.limit number
                            (sqlite.order_by_score_desc scored))).
  { unfold ranked. rewrite Hs. reflexivity. }
  rewrite Hranked. eexists. split; [reflexivity|]. split; [|split].
  - apply limit_length. lia.
  - apply (ranked_excludes v cid number id' (rows t) _ Htruthy Hranked).
  - intros i Hi. apply in_map_iff in Hi. destruct Hi as ([i' sc] & <- & Hin).
    apply limit_In in Hin. apply (proj1 (order_by_In _ _)) in Hin.
    destruct (select_scores_sound _ _ _ _ _ Hs Hin) as (r & Hrow & Hi & _).
    apply filter_In in Hrow. destruct Hrow as [Hrow Hw].
    apply where_holds_spec in Hw. destruct Hw as [Hc _].
    exists r. auto.
Qed.

(** X19: on a resolved handle with a model at hand, [similar(text)]
    returns what [similar_by_vector] returns for the model's embedding of
    the text with nothing skipped, whether the model was bound already or
    is resolved by this call. *)
Theorem similar_is_search_by_embedding (s : State) (cid : Z)
    (m : EmbeddingModel float) (text : string) (number : Z) :
  _id (self s) = Some cid ->
  bound_model (_model (self s)) (_model_id (self s)) = Some m ->
  snd (Collection.similar text number s)
  = snd (Collection.similar_by_vector (embed_text m text) number None s)
  /\ db (fst (Collection.similar text number s)) = db s.
Proof.
  intros Hid Hb.
  destruct (model_run s m Hb) as (s' & Hm & Hdb & _ & _ & _ & _ & Hi).
  unfold Collection.similar. unfold bind at 1 2. rewrite Hm.
  unfold Collection.similar_by_vector, sqlite.register_function.
  run_monad.
  rewrite (id_cached _ cid) by (simpl; congruence).
  rewrite (id_cached _ cid) by (simpl; exact Hid).
  unfold sqlite.query_similar. run_monad. rewrite Hdb.
  destruct (db_embeddings (db s)) as [t|]; simpl; [|auto].
  destruct ((number <? sqlite.min_int64) || (sqlite.max_int64 <? number));
    simpl; [auto|].
  destruct (sqlite.select_scores _ _); simpl; auto.
Qed.

End Searching.

(** ** The properties above on the sample store *)


(** Witness of X2: a handle on the stored "docs". *)
Lemma new_agrees_with_store_witness :
  let s := fst (@Collection.new Sample.llm Sample.docs_db [] "docs"
                  None None) in
  name (self s) = "docs"
  /\ exists row,
       stored (db s) "docs" = Some row
       /\ collections.name row = "docs"
       /\ _id (self s) = Some (collections.id row).
Proof.
  intros s.
  assert (Hnew : @Collection.new Sample.llm Sample.docs_db [] "docs"
                   None None = (s, Ok tt))
    by (vm_compute; reflexivity).
  exact (new_agrees_with_store (L := Sample.llm) Sample.docs_db [] "docs"
           None None s Hnew).
Defined.

(** Witness of X3: "notes" created by a first handle, found by a second. *)
Lemma new_twice_same_id_witness :
  let s1 := fst (@Collection.new Sample.llm Sample.docs_db [] "notes"
                   (Some Sample.other) None) in
  exists s2,
    @Collection.new Sample.llm (db s1) (calls s1) "notes" None (Some "toy")
    = (s2, Ok tt)
    /\ db s2 = db s1
    /\ _id (self s2) = _id (self s1).
Proof.
  intros s1.
  assert (Hnew : @Collection.new Sample.llm Sample.docs_db [] "notes"
                   (Some Sample.other) None = (s1, Ok tt))
    by (vm_compute; reflexivity).
  exact (new_twice_same_id (L := Sample.llm) Sample.docs_db [] "notes"
           (Some Sample.other) None None (Some "toy") s1 Hnew eq_refl).
Defined.

(** Witness of X4: "notes" created beside "docs". *)
Lemma new_keeps_collections_unique_witness :
  names_unique Sample.docs_db /\ ids_unique Sample.docs_db
  /\ names_unique
       (db (fst (@Collection.new Sample.llm Sample.docs_db [] "notes"
                   (Some Sample.other) None)))
  /\ ids_unique
       (db (fst (@Collection.new Sample.llm Sample.docs_db [] "notes"
                   (Some Sample.other) None))).
Proof.
  assert (Hn : names_unique Sample.docs_db).
  { repeat constructor. intros []. }
  assert (Hi : ids_unique Sample.docs_db).
  { repeat constructor. intros []. }
  split; [exact Hn|]. split; [exact Hi|].
  exact (new_keeps_collections_unique (L := Sample.llm) Sample.docs_db []
           "notes" (Some Sample.other) None Hn Hi).
Defined.

(** Witness of X5: the model "other" passed with [model_id="toy"]. *)
Lemma new_rejects_mismatch_witness :
  snd (@Collection.new Sample.llm Sample.docs_db [] "docs"
         (Some Sample.other) (Some "toy"))
  = Raise (ValueError "model_id does not match model.model_id")
  /\ db (fst (@Collection.new Sample.llm Sample.docs_db [] "docs"
                (Some Sample.other) (Some "toy"))) = Sample.docs_db.
Proof.
  destruct (new_rejects_mismatch (L := Sample.llm) Sample.docs_db [] "docs"
              Sample.other "toy") as (H1 & H2 & _);
    [discriminate | discriminate |].
  split; assumption.
Defined.

(** Witness of X6: "docs" is stored in the sample store, and nothing can
    be asked of a database without tables. *)
Lemma exists_reports_stored_witness :
  snd (Collection.exists_ Sample.docs_state)
  = Ok (match stored (db Sample.docs_state)
                (name (self Sample.docs_state)) with
        | Some _ => true
        | None => false
        end)
  /\ snd (Collection.exists_ (Sample.on Sample.docs Sample.empty_db))
     = Raise (OperationalError "no such table: collections").
Proof.
  split.
  - apply (proj2 (proj2 (proj2
             (exists_reports_stored (L := Sample.llm) Sample.docs_state)))).
    discriminate.
  - apply (proj1 (proj2 (proj2
             (exists_reports_stored (L := Sample.llm)
                (Sample.on Sample.docs Sample.empty_db))))).
    reflexivity.
Defined.

(** Witness of X7: "docs" created on an empty database exists. *)
Lemma exists_after_new_witness :
  let s := fst (@Collection.new Sample.llm Sample.empty_db [] "docs"
                  (Some Sample.toy) None) in
  snd (Collection.exists_ s) = Ok true.
Proof.
  intros s.
  assert (Hnew : @Collection.new Sample.llm Sample.empty_db [] "docs"
                   (Some Sample.toy) None = (s, Ok tt))
    by (vm_compute; reflexivity).
  exact (exists_after_new (L := Sample.llm) Sample.empty_db [] "docs"
           (Some Sample.toy) None s Hnew).
Defined.

(** Witness of X8: counting on a database without tables. *)
Lemma count_only_reads_witness :
  db (fst (Collection.count (Sample.on Sample.docs Sample.empty_db)))
  = db (Sample.on Sample.docs Sample.empty_db)
  /\ exists msg,
       snd (Collection.count (Sample.on Sample.docs Sample.empty_db))
       = Raise (OperationalError msg).
Proof.
  destruct (count_only_reads (L := Sample.llm)
              (Sample.on Sample.docs Sample.empty_db)) as (H1 & _ & H3).
  split; [exact H1|]. apply H3. left. reflexivity.
Defined.

(** Witness of X9: the model of "docs" is resolved once. *)
Lemma model_is_cached_witness :
  let s1 := fst (Collection.model Sample.docs_state) in
  Collection.model Sample.docs_state = (s1, Ok Sample.toy)
  /\ Collection.model (Sample.on (self s1) Sample.empty_db)
     = (Sample.on (self s1) Sample.empty_db, Ok Sample.toy).
Proof.
  intros s1.
  assert (Hm : Collection.model Sample.docs_state = (s1, Ok Sample.toy))
    by (vm_compute; reflexivity).
  split; [exact Hm|].
  destruct (model_is_cached (L := Sample.llm) Sample.docs_state s1
              (Ok Sample.toy) Hm) as (_ & _ & _ & _ & _ & H).
  exact (H Sample.toy eq_refl Sample.empty_db []).
Defined.

(** Witness of X10: a record "c" stored in "docs" with its text. *)
Lemma embed_appends_record_witness :
  let s1 := fst (Collection.embed "c" "hello" None true Sample.docs_state) in
  snd (Collection.embed "c" "hello" None true Sample.docs_state) = Ok tt
  /\ embedding_rows (db s1)
     = embedding_rows (db Sample.docs_state)
       ++ [record (L := Sample.llm) 1 Sample.toy "c" "hello" None true].
Proof.
  destruct (embed_appends_record (L := Sample.llm) Sample.docs_state 1
              Sample.toy "c" "hello" None true eq_refl eq_refl)
    as (H1 & H2 & _).
  - intros t Ht _. injection Ht as <-. vm_compute. reflexivity.
  - split; assumption.
Defined.


(** Witness of X12: "docs" counts three records, four after one more. *)
Lemma count_after_embed_witness :
  let s1 := fst (Collection.embed "c" "hello" None true Sample.docs_state) in
  snd (Collection.count Sample.docs_state) = Ok 3
  /\ snd (Collection.count s1) = Ok (3 + 1).
Proof.
  intros s1.
  assert (Hst : stored (db Sample.docs_state) (name (self Sample.docs_state))
                = Some Sample.docs_row)
    by (vm_compute; reflexivity).
  assert (Hk : snd (Collection.count Sample.docs_state) = Ok 3)
    by (vm_compute; reflexivity).
  assert (He : Collection.embed "c" "hello" None true Sample.docs_state
               = (s1, Ok tt))
    by (vm_compute; reflexivity).
  split; [exact Hk|].
  exact (count_after_embed (L := Sample.llm) Sample.docs_state s1
           Sample.docs_row 3 "c" "hello" None true Hst eq_refl Hk He).
Defined.

(** Witness of X13: the three keys of "docs", and a fourth. *)
Lemma embed_keeps_keys_unique_witness :
  NoDup (map key (embedding_rows Sample.docs_db))
  /\ NoDup (map key
              (embedding_rows
                 (db (fst (Collection.embed "c" "hello" None true
                             Sample.docs_state))))).
Proof.
  assert (H : NoDup (map key (embedding_rows Sample.docs_db))).
  { repeat constructor; simpl; intuition discriminate. }
  split; [exact H|].
  exact (embed_keeps_keys_unique (L := Sample.llm) Sample.docs_state 1
           {| keyed := true; rows := embedding_rows Sample.docs_db |}
           "c" "hello" None true eq_refl eq_refl eq_refl H).
Defined.

(** Witness of X14: a handle without model or model_id. *)
Lemma no_model_no_database_call_witness :
  let s := Sample.on Sample.unresolved Sample.docs_db in
  Collection.embed "c" "hello" None true s
  = (s, Raise (ValueError
                 "No model_id specified and no model found with that name"))
  /\ Collection.similar "hello" 5 s
     = (s, Raise (ValueError
                    "No model_id specified and no model found with that name")).
Proof.
  intros s.
  exact (no_model_no_database_call (L := Sample.llm) s "c" "hello" None
           true 5 eq_refl eq_refl).
Defined.

(** Witness of X15: no record "z" in "docs". *)
Lemma similar_by_id_not_found_witness :
  Collection.similar_by_id "z" 5 Sample.docs_state
  = ({| self := self Sample.docs_state; db := db Sample.docs_state;
        calls := calls Sample.docs_state
                 ++ [call_rows_where "embeddings"] |},
     Raise (ValueError "ID not found")).
Proof.
  apply (similar_by_id_not_found (L := Sample.llm) Sample.docs_state 1
           "z" 5 eq_refl).
  vm_compute. reflexivity.
Defined.

(** Witness of X16: the best pair of "docs" for the vector (1, 1) is the
    record "b" with its score. *)
Lemma similar_by_vector_sound_witness :
  snd (Collection.similar_by_vector (L := Sample.llm) [1; 1] 1 None
         Sample.docs_state) = Ok [("b", 5)]
  /\ exists r,
       In r (embedding_rows Sample.docs_db)
       /\ embeddings.id r = "b"
       /\ Collection.distance_score (L := Sample.llm) [1; 1]
            (embeddings.embedding r) = Ok 5.
Proof.
  assert (H : snd (Collection.similar_by_vector (L := Sample.llm) [1; 1] 1
                     None Sample.docs_state) = Ok [("b", 5)])
    by (vm_compute; reflexivity).
  split; [exact H|].
  destruct (similar_by_vector_sound (L := Sample.llm) Sample.docs_state 1
              {| keyed := true; rows := embedding_rows Sample.docs_db |}
              [1; 1] 1 None [("b", 5)] eq_refl eq_refl H "b" 5)
    as [(r & Hr & _ & Hi & Hs) _].
  - left. reflexivity.
  - exists r. auto.
Defined.

(** Witness of X17: the record "a" of "docs" is left out of the best pair
    and scores no higher than it. *)
Lemma similar_by_vector_best_witness :
  snd (Collection.similar_by_vector (L := Sample.llm) [1; 1] 1 None
         Sample.docs_state) = Ok [("b", 5)]
  /\ (In ("a", 1) [("b", 5)]
      \/ forall p : string * Z, In p [("b", 5)] -> (1 <=? snd p) = true).
Proof.
  assert (total : forall a b : Z, (a <=? b) = true \/ (b <=? a) = true).
  { intros a b. rewrite !Z.leb_le. lia. }
  assert (trans : forall a b c : Z,
             (a <=? b) = true -> (b <=? c) = true -> (a <=? c) = true).
  { intros a b c. rewrite !Z.leb_le. lia. }
  assert (H : snd (Collection.similar_by_vector (L := Sample.llm) [1; 1] 1
                     None Sample.docs_state) = Ok [("b", 5)])
    by (vm_compute; reflexivity).
  split; [exact H|].
  refine (proj1 (similar_by_vector_best (L := Sample.llm) Sample.docs_state 1
                   {| keyed := true; rows := embedding_rows Sample.docs_db |}
                   [1; 1] 1 None [("b", 5)] eq_refl eq_refl total trans H
                   {| embeddings.collection_id := 1; embeddings.id := "a";
                      embeddings.embedding := Codec.pack_words [1; 0];
                      embeddings.content := None;
                      embeddings.metadata := None |}
                   1 _ eq_refl _ _)).
  - left. reflexivity.
  - intros x [=].
  - vm_compute. reflexivity.
Defined.

(** Witness of X18: the neighbours of "a" in "docs". *)
Lemma similar_by_id_ranked_witness :
  exists l,
    snd (Collection.similar_by_id "a" 5 Sample.docs_state) = Ok l
    /\ Z.of_nat (List.length l) <= 5
    /\ ~ In "a" (map fst l).
Proof.
  destruct (similar_by_id_ranked (L := Sample.llm) Sample.docs_state 1
              {| keyed := true; rows := embedding_rows Sample.docs_db |}
              "a" 5
              {| embeddings.collection_id := 1; embeddings.id := "a";
                 embeddings.embedding := Codec.pack_words [1; 0];
                 embeddings.content := None;
                 embeddings.metadata := None |}
              [] [1; 0] eq_refl eq_refl)
    as (l & H1 & H2 & H3 & _).
  - discriminate.
  - vm_compute. reflexivity.
  - vm_compute. reflexivity.
  - unfold sqlite.max_int64. lia.
  - intros r Hr _ _. simpl in Hr.
    destruct Hr as [<- | [<- | [<- | []]]]; eexists; vm_compute; reflexivity.
  - exists l. auto.
Defined.

(** Witness of X19: searching "docs" by a text. *)
Lemma similar_is_search_by_embedding_witness :
  snd (Collection.similar "hello" 2 Sample.docs_state)
  = snd (Collection.similar_by_vector (L := Sample.llm)
           (embed_text Sample.toy "hello") 2 None Sample.docs_state).
Proof.
  exact (proj1 (similar_is_search_by_embedding (L := Sample.llm)
                  Sample.docs_state 1 Sample.toy "hello" 2
                  eq_refl eq_refl)).
Defined.
